(** * The CIFAR-10 training script [main.py], as a trace-producing program

    The script drives torch, torchvision, tensorboard and pandas.  Those
    collaborators are opaque here: every call the script makes on them is
    recorded as an [event], and the values they hand back (batches, network
    outputs, the loss of a batch) are read from an environment [Env].  What
    the script computes itself -- the running sums, the divisions, the model
    dispatch, the optimizer choice, the paths, the epoch loop and the Python
    exceptions it can run into -- is modelled as written. *)

From Stdlib Require Import ZArith List String Ascii Bool Lia SpecFloat DecimalString.
Import ListNotations.
Local Open Scope string_scope.
Local Open Scope list_scope.
Local Open Scope Z_scope.

(** ** Python values used by the script *)

Module Py.

(** A Python [float] is an IEEE-754 binary64 number. *)
Definition float := spec_float.
Definition prec : Z := 53.
Definition emax : Z := 1024.

Definition fadd : float -> float -> float := SFadd prec emax.
Definition fmul : float -> float -> float := SFmul prec emax.
Definition fdiv : float -> float -> float := SFdiv prec emax.

(** [float(z)] for an [int], correctly rounded.  CPython raises
    [OverflowError] from 2^1024 on; the integers of this script are batch
    and sample counters, and that error is not modelled. *)
Definition of_int (z : Z) : float := binary_normalize prec emax z 0 false.

(** An [int] as an unrounded dyadic, for [int / int] (correctly rounded
    true division). *)
Definition exact_int (z : Z) : float :=
  match z with
  | Z0 => S754_zero false
  | Zpos p => S754_finite false p 0
  | Zneg p => S754_finite true p 0
  end.

(** The float literals of the script. *)
Definition f_100 : float := S754_finite false 7036874417766400 (-46).    (* 100. *)
Definition f_0_9 : float := S754_finite false 8106479329266893 (-53).    (* 0.9  *)
Definition f_5e_4 : float := S754_finite false 4611686018427388 (-63).   (* 5e-4 *)
Definition f_0_1 : float := S754_finite false 7205759403792794 (-56).    (* 0.1  *)

(** A number is an [int] or a [float]; [train_loss = 0] starts as an
    [int] and becomes a [float] with the first [+= loss.item()]. *)
Inductive num : Type :=
| Int (z : Z)
| Float (f : float).

Inductive exn : Type :=
| Exception (msg : string)
| UnboundLocalError (var : string)
| ZeroDivisionError.

Inductive res (A : Type) : Type :=
| Ok (a : A)
| Raise (e : exn).
Arguments Ok {A} a.
Arguments Raise {A} e.

Definition to_float (x : num) : float :=
  match x with
  | Int z => of_int z
  | Float f => f
  end.

(** [x + y] *)
Definition add (x y : num) : num :=
  match x, y with
  | Int a, Int b => Int (a + b)
  | _, _ => Float (fadd (to_float x) (to_float y))
  end.

(** [x * y] *)
Definition mul (x y : num) : num :=
  match x, y with
  | Int a, Int b => Int (a * b)
  | _, _ => Float (fmul (to_float x) (to_float y))
  end.

Definition is_zero (x : num) : bool :=
  match x with
  | Int z => z =? 0
  | Float (S754_zero _) => true
  | Float _ => false
  end.

(** [x / y]: true division, [ZeroDivisionError] on a zero divisor of
    either type. *)
Definition truediv (x y : num) : res num :=
  if is_zero y then Raise ZeroDivisionError
  else match x, y with
       | Int a, Int b => Ok (Float (fdiv (exact_int a) (exact_int b)))
       | _, _ => Ok (Float (fdiv (to_float x) (to_float y)))
       end.

(** [x > y], [x <= y], [x == y]; every comparison with a NaN is [False]. *)
Definition gt (x y : num) : bool :=
  match x, y with
  | Int a, Int b => b <? a
  | _, _ => SFltb (to_float y) (to_float x)
  end.

Definition le (x y : num) : bool :=
  match x, y with
  | Int a, Int b => a <=? b
  | _, _ => SFleb (to_float x) (to_float y)
  end.

Definition eq (x y : num) : bool :=
  match x, y with
  | Int a, Int b => a =? b
  | _, _ => SFeqb (to_float x) (to_float y)
  end.

(** [str(z)] for an [int]. *)
Definition str_int (z : Z) : string := NilZero.string_of_int (Z.to_int z).

(** [range(n)] *)
Definition range (n : nat) : list Z := map Z.of_nat (seq 0 n).

(** [enumerate(l)], and the same counting from [i]. *)
Fixpoint enumerate_from {A : Type} (i : Z) (l : list A) : list (Z * A) :=
  match l with
  | [] => []
  | x :: l' => (i, x) :: enumerate_from (i + 1) l'
  end.

Definition enumerate {A : Type} (l : list A) : list (Z * A) := enumerate_from 0 l.

(** [len(l)] *)
Definition len {A : Type} (l : list A) : Z := Z.of_nat (List.length l).

(** [s.endswith('/')] *)
Fixpoint ends_with_sep (s : string) : bool :=
  match s with
  | EmptyString => false
  | String c EmptyString => Ascii.eqb c "/"
  | String _ rest => ends_with_sep rest
  end.

(** [os.path.join(a, b)] on POSIX: an absolute [b] discards [a]. *)
Definition path_join (a b : string) : string :=
  if String.prefix "/" b then b
  else if (String.eqb a "" || ends_with_sep a)%bool then (a ++ b)%string
  else (a ++ "/" ++ b)%string.

(** A [dict] with string keys, in insertion order. *)
Definition dict := list (string * num).

Definition keys (d : dict) : list string := map fst d.

Fixpoint get (d : dict) (k : string) : option num :=
  match d with
  | [] => None
  | (k', v) :: d' => if String.eqb k' k then Some v else get d' k
  end.

Definition mem (k : string) (l : list string) : bool :=
  existsb (String.eqb k) l.

(** [pd.DataFrame(stats)] for a list of dicts: the columns are the keys
    in order of first appearance, a row holds the dict's value per
    column, NaN where the key is missing. *)
Fixpoint add_keys (seen ks : list string) : list string :=
  match ks with
  | [] => seen
  | k :: ks' => add_keys (if mem k seen then seen else seen ++ [k]) ks'
  end.

Definition columns (stats : list dict) : list string :=
  fold_left (fun seen d => add_keys seen (keys d)) stats [].

Definition row (cols : list string) (d : dict) : list num :=
  map (fun k => match get d k with Some v => v | None => Float S754_nan end) cols.

Definition rows (stats : list dict) : list (list num) :=
  map (row (columns stats)) stats.

End Py.

Import Py.

(** ** The collaborators *)

(** A batch as the loaders yield it: [inputs, targets]. *)
Record batch (Image : Type) : Type := Batch {
  inputs : list Image;
  targets : list Z
}.
Arguments Batch {Image} inputs targets.
Arguments inputs {Image} b.
Arguments targets {Image} b.

(** The architectures of [models]. *)
Inductive arch : Type :=
| VGG19 | ResNet18 | PreActResNet18 | GoogLeNet | DenseNet121
| ResNeXt29_2x64d | MobileNet | MobileNetV2 | DPN92 | ShuffleNetG2
| SENet18 | ShuffleNetV2_1 | EfficientNetB0 | RegNetX_200MF | SimpleDLA.

(** The optimizer object, by class and constructor arguments. *)
Inductive optimizer : Type :=
| SGD (lr momentum weight_decay : float)
| SGDO (lr momentum weight_decay : float) (overshoot : num).

(** [isinstance(optimizer, SGDO)] *)
Definition is_SGDO (o : optimizer) : bool :=
  match o with
  | SGDO _ _ _ _ => true
  | SGD _ _ _ => false
  end.

(** Every call the script makes, in program order. *)
Inductive event (Image Outputs : Type) : Type :=
| EvManualSeed (seed : Z)                       (* torch.manual_seed(seed) *)
| EvMakeDirs (path : string)                    (* os.makedirs(path, exist_ok=True) *)
| EvSummaryWriter (log_dir : string)            (* SummaryWriter(log_dir=...) *)
| EvCopy (src dst : string)                     (* shutil.copy(src, dst) *)
| EvPrint (s : string)                          (* print(s) *)
| EvDataset (train : bool)                      (* torchvision.datasets.CIFAR10(..., train=...) *)
| EvDataLoader (train : bool) (batch_size : Z) (shuffle : bool)
| EvBuild (a : arch)                            (* VGG('VGG19'), ResNet18(), ... *)
| EvToDevice (cuda : bool)                      (* net.to(device) *)
| EvDataParallel                                (* torch.nn.DataParallel(net) *)
| EvCudnnBenchmark                              (* cudnn.benchmark = True *)
| EvCriterion                                   (* nn.CrossEntropyLoss() *)
| EvOptimizer (o : optimizer)                   (* SGDO(...) or optim.SGD(...) *)
| EvScheduler (T_max : Z)                       (* CosineAnnealingLR(optimizer, T_max=...) *)
| EvNetTrain                                    (* net.train() *)
| EvNetEval                                     (* net.eval() *)
| EvMoveToBase                                  (* optimizer.move_to_base() *)
| EvMoveToOvershoot                             (* optimizer.move_to_overshoot() *)
| EvIter (train : bool)                         (* enumerate(trainloader / testloader) *)
| EvZeroGrad                                    (* optimizer.zero_grad() *)
| EvForward (b : batch Image) (out : Outputs)   (* outputs = net(inputs) *)
| EvBackward                                    (* loss.backward() *)
| EvStep                                        (* optimizer.step() *)
| EvProgressBar (idx n : Z) (loss acc : num) (correct total : Z)
| EvSchedulerStep                               (* scheduler.step() *)
| EvStatsAppend (r : dict)                      (* stats.append({...}) *)
| EvAddScalar (k : string) (v : num) (epoch : Z) (* log_writer.add_scalar(k, v, epoch) *)
| EvToCsv (path : string) (cols : list string) (rows : list (list num)).

Arguments EvManualSeed {Image Outputs}.
Arguments EvMakeDirs {Image Outputs}.
Arguments EvSummaryWriter {Image Outputs}.
Arguments EvCopy {Image Outputs}.
Arguments EvPrint {Image Outputs}.
Arguments EvDataset {Image Outputs}.
Arguments EvDataLoader {Image Outputs}.
Arguments EvBuild {Image Outputs}.
Arguments EvToDevice {Image Outputs}.
Arguments EvDataParallel {Image Outputs}.
Arguments EvCudnnBenchmark {Image Outputs}.
Arguments EvCriterion {Image Outputs}.
Arguments EvOptimizer {Image Outputs}.
Arguments EvScheduler {Image Outputs}.
Arguments EvNetTrain {Image Outputs}.
Arguments EvNetEval {Image Outputs}.
Arguments EvMoveToBase {Image Outputs}.
Arguments EvMoveToOvershoot {Image Outputs}.
Arguments EvIter {Image Outputs}.
Arguments EvZeroGrad {Image Outputs}.
Arguments EvForward {Image Outputs}.
Arguments EvBackward {Image Outputs}.
Arguments EvStep {Image Outputs}.
Arguments EvProgressBar {Image Outputs}.
Arguments EvSchedulerStep {Image Outputs}.
Arguments EvStatsAppend {Image Outputs}.
Arguments EvAddScalar {Image Outputs}.
Arguments EvToCsv {Image Outputs}.

(** What the script reads from its surroundings.  [World] is the state
    behind the torch objects (parameters, gradients, optimizer buffers,
    generator state, data on disk); each call moves it by [world_step]. *)
Record Env (Image Outputs World : Type) : Type := {
  cuda_available : bool;                               (* torch.cuda.is_available() *)
  script_path : string;                                (* os.path.abspath(sys.argv[0]) *)
  float_repr : float -> string;                        (* str(x) for a float *)
  world_step : event Image Outputs -> World -> World;
  loader_batches : bool -> World -> list (batch Image); (* what one iteration of a loader yields *)
  net_forward : World -> list Image -> Outputs;        (* net(inputs) *)
  criterion_item : Outputs -> list Z -> float;         (* criterion(outputs, targets).item() *)
  outputs_argmax : Outputs -> list Z                   (* outputs.max(1)[1] *)
}.
Arguments cuda_available {Image Outputs World} e.
Arguments script_path {Image Outputs World} e.
Arguments float_repr {Image Outputs World} e.
Arguments world_step {Image Outputs World} e.
Arguments loader_batches {Image Outputs World} e.
Arguments net_forward {Image Outputs World} e.
Arguments criterion_item {Image Outputs World} e.
Arguments outputs_argmax {Image Outputs World} e.

(** The parsed command line. *)
Record args : Type := Args {
  run_name : string;      (* --run_name, required *)
  model : string;         (* --model, required *)
  lr : float;             (* --lr, type=float, default=0.1 *)
  overshoot : num         (* --overshoot, type=float, default=0 (the int) *)
}.

(** [--overshoot] left out: argparse keeps the non-string default as it is. *)
Definition default_overshoot : num := Int 0.

(** ** The script *)

Section Script.

Context {Image Outputs World : Type}.
Variable E : Env Image Outputs World.

(** A piece of the script runs from a world and gives back a result or
    the exception it raised, the world it leaves and the calls it made.
    An exception ends the piece: nothing in the script catches one. *)
Definition Prog (A : Type) : Type :=
  World -> res A * World * list (event Image Outputs).

Definition ret {A : Type} (a : A) : Prog A := fun w => (Ok a, w, []).

Definition raise {A : Type} (e : exn) : Prog A := fun w => (Raise e, w, []).

Definition lift {A : Type} (r : res A) : Prog A := fun w => (r, w, []).

Definition bind {A B : Type} (m : Prog A) (k : A -> Prog B) : Prog B :=
  fun w =>
    match m w with
    | (Ok a, w1, t1) =>
        match k a w1 with
        | (r, w2, t2) => (r, w2, t1 ++ t2)
        end
    | (Raise e, w1, t1) => (Raise e, w1, t1)
    end.

Definition call (e : event Image Outputs) : Prog unit :=
  fun w => (Ok tt, world_step E e w, [e]).

Notation "x <- m ;; k" := (bind m (fun x => k))
  (at level 100, m at next level, right associativity).
Notation "m ;; k" := (bind m (fun _ => k))
  (at level 100, right associativity).

(** [for x in l: s = body(s, x)] *)
Fixpoint for_fold {A S : Type} (l : list A) (body : S -> A -> Prog S) (s : S) : Prog S :=
  match l with
  | [] => ret s
  | x :: l' => s' <- body s x ;; for_fold l' body s'
  end.

Definition for_each {A : Type} (l : list A) (body : A -> Prog unit) : Prog unit :=
  for_fold l (fun _ x => body x) tt.

Definition when (c : bool) (m : Prog unit) : Prog unit :=
  if c then m else ret tt.

(** *** [train] and [test] *)

(** The locals of a pass: [train_loss] / [test_loss], [correct], [total]
    and [batch_idx], which is unbound until the loop binds it. *)
Record counters : Type := Counters {
  run_loss : num;
  n_correct : Z;
  n_total : Z;
  batch_idx : option Z
}.

(** [train_loss = 0; correct = 0; total = 0] *)
Definition counters0 : counters := Counters (Int 0) 0 0 None.

(** [predicted.eq(targets).sum().item()] *)
Definition count_eq (predicted tgts : list Z) : Z :=
  len (filter (fun pt => fst pt =? snd pt) (combine predicted tgts)).

(** Starting to iterate a loader: the batches it is going to yield. *)
Definition iterate (train : bool) : Prog (list (batch Image)) :=
  fun w => (Ok (loader_batches E train w), world_step E (EvIter train) w, [EvIter train]).

(** [outputs = net(inputs)] *)
Definition forward (b : batch Image) : Prog Outputs :=
  fun w =>
    let out := net_forward E w (inputs b) in
    (Ok out, world_step E (EvForward b out) w, [EvForward b out]).

(** Lines 42-48 of [train], the same as lines 65-71 of [test]: add the
    batch to the running sums and show the progress bar; [n] is
    [len(loader)]. *)
Definition tally (n i : Z) (b : batch Image) (out : Outputs) (c : counters)
  : Prog counters :=
  let loss := add (run_loss c) (Float (criterion_item E out (targets b))) in
  let predicted := outputs_argmax E out in
  let total := n_total c + len (targets b) in
  let correct := n_correct c + count_eq predicted (targets b) in
  avg <- lift (truediv loss (Int (i + 1))) ;;
  pct <- lift (truediv (mul (Float f_100) (Int correct)) (Int total)) ;;
  call (EvProgressBar i n avg pct correct total) ;;
  ret (Counters loss correct total (Some i)).

(** The body of the loop of [train], lines 35-48, with
    [batch_idx, (inputs, targets)] bound to [ib]. *)
Definition train_batch (n : Z) (c : counters) (ib : Z * batch Image) : Prog counters :=
  let i := fst ib in
  let b := snd ib in
  call EvZeroGrad ;;
  out <- forward b ;;
  call EvBackward ;;
  call EvStep ;;
  tally n i b out c.

(** The body of the loop of [test], lines 61-71. *)
Definition test_batch (n : Z) (c : counters) (ib : Z * batch Image) : Prog counters :=
  let i := fst ib in
  let b := snd ib in
  out <- forward b ;;
  tally n i b out c.

(** [return loss/(batch_idx+1), 100.*correct/total] *)
Definition pass_return (c : counters) : Prog (num * num) :=
  match batch_idx c with
  | None => raise (UnboundLocalError "batch_idx")
  | Some i =>
      avg <- lift (truediv (run_loss c) (Int (i + 1))) ;;
      pct <- lift (truediv (mul (Float f_100) (Int (n_correct c))) (Int (n_total c))) ;;
      ret (avg, pct)
  end.

(** ['\nEpoch: %d' % epoch] *)
Definition epoch_header (epoch : Z) : string :=
  (String (ascii_of_nat 10) "Epoch: " ++ str_int epoch)%string.

(** [train(epoch)], lines 28-49.  Moving a batch to the device is not a
    call of its own here. *)
Definition train (epoch : Z) : Prog (num * num) :=
  call (EvPrint (epoch_header epoch)) ;;
  call EvNetTrain ;;
  bs <- iterate true ;;
  c <- for_fold (enumerate bs) (train_batch (len bs)) counters0 ;;
  pass_return c.

(** [test(epoch)], lines 52-76, with the global [optimizer] as [opt].
    Entering and leaving [torch.no_grad()] is not a call of its own
    here. *)
Definition test (opt : optimizer) (epoch : Z) : Prog (num * num) :=
  call EvNetEval ;;
  when (is_SGDO opt) (call EvMoveToBase) ;;
  bs <- iterate false ;;
  c <- for_fold (enumerate bs) (test_batch (len bs)) counters0 ;;
  when (is_SGDO opt) (call EvMoveToOvershoot) ;;
  pass_return c.

(** *** The main block *)

(** [f"{x}"] for a number. *)
Definition str_num (x : num) : string :=
  match x with
  | Int z => str_int z
  | Float f => float_repr E f
  end.

(** Lines 131-163. *)
Definition build_model (name : string) : Prog unit :=
  if String.eqb name "vgg" then call (EvBuild VGG19)
  else if String.eqb name "resnet" then
    call (EvPrint "Using resnet") ;; call (EvBuild ResNet18)
  else if String.eqb name "pre_act_resnet" then call (EvBuild PreActResNet18)
  else if String.eqb name "googlenet" then call (EvBuild GoogLeNet)
  else if String.eqb name "densenet" then call (EvBuild DenseNet121)
  else if String.eqb name "resnex" then call (EvBuild ResNeXt29_2x64d)
  else if String.eqb name "mobilenet" then call (EvBuild MobileNet)
  else if String.eqb name "mobilenet_v2" then call (EvBuild MobileNetV2)
  else if String.eqb name "dpn" then call (EvBuild DPN92)
  else if String.eqb name "shufflenet" then call (EvBuild ShuffleNetG2)
  else if String.eqb name "senet" then call (EvBuild SENet18)
  else if String.eqb name "shufflenet_v2" then call (EvBuild ShuffleNetV2_1)
  else if String.eqb name "efficientnet" then call (EvBuild EfficientNetB0)
  else if String.eqb name "regnetx" then call (EvBuild RegNetX_200MF)
  else if String.eqb name "dla" then call (EvBuild SimpleDLA)
  else raise (Exception ("Unsupported model name " ++ name)%string).

(** Lines 171-174. *)
Definition make_optimizer (a : args) : optimizer :=
  if gt (overshoot a) (Int 0)
  then SGDO (lr a) f_0_9 f_5e_4 (overshoot a)
  else SGD (lr a) f_0_9 f_5e_4.

Definition epochs : nat := 200.
Definition n_runs : nat := 2.

(** The record of an epoch, line 185. *)
Definition epoch_record (train_loss train_acc val_loss val_acc : num) : dict :=
  [("train_loss", train_loss); ("train_acc", train_acc);
   ("val_loss", val_loss); ("val_acc", val_acc)].

(** The body of the epoch loop, lines 180-187. *)
Definition epoch_body (opt : optimizer) (stats : list dict) (epoch : Z)
  : Prog (list dict) :=
  tr <- train epoch ;;
  va <- test opt epoch ;;
  call EvSchedulerStep ;;
  let r := epoch_record (fst tr) (snd tr) (fst va) (snd va) in
  call (EvStatsAppend r) ;;
  let stats' := stats ++ [r] in
  for_each (last stats' []) (fun kv => call (EvAddScalar (fst kv) (snd kv) epoch)) ;;
  ret stats'.

Definition base_dir (a : args) : string :=
  path_join "tensorboard" (run_name a ++ "_overshoot_" ++ str_num (overshoot a))%string.

Definition log_dir (a : args) (seed : Z) : string :=
  path_join (base_dir a) ("version_" ++ str_int (seed + 1))%string.

(** The body of [for seed in range(n_runs)], lines 93-189. *)
Definition run (a : args) (seed : Z) : Prog unit :=
  call (EvManualSeed (11 * seed)) ;;
  call (EvMakeDirs (base_dir a)) ;;
  call (EvSummaryWriter (log_dir a seed)) ;;
  call (EvCopy (script_path E) (path_join (base_dir a) "main.py")) ;;
  call (EvPrint "==> Preparing data..") ;;
  call (EvDataset true) ;;
  call (EvDataLoader true 128 true) ;;
  call (EvDataset false) ;;
  call (EvDataLoader false 100 false) ;;
  call (EvPrint "==> Building model..") ;;
  build_model (model a) ;;
  call (EvToDevice (cuda_available E)) ;;
  when (cuda_available E) (call EvDataParallel ;; call EvCudnnBenchmark) ;;
  call EvCriterion ;;
  let opt := make_optimizer a in
  call (EvOptimizer opt) ;;
  call (EvScheduler (Z.of_nat epochs)) ;;
  stats <- for_fold (range epochs) (epoch_body opt) [] ;;
  call (EvToCsv (path_join (log_dir a seed) "stats.csv") (columns stats) (rows stats)).

(** The script from its first statement: the seeding at import time,
    then the runs. *)
Definition main (a : args) : Prog unit :=
  call (EvManualSeed 0) ;;
  for_each (range n_runs) (run a).

End Script.

(** ** What a run shows *)

Section Observations.

Context {Image Outputs World : Type}.
Variable E : Env Image Outputs World.

Definition result {A : Type} (x : res A * World * list (event Image Outputs)) : res A :=
  fst (fst x).

Definition calls {A : Type} (x : res A * World * list (event Image Outputs))
  : list (event Image Outputs) :=
  snd x.

(** The world after a sequence of calls. *)
Definition worlds_after (evs : list (event Image Outputs)) (w : World) : World :=
  fold_left (fun w' ev => world_step E ev w') evs w.

(** The batches a trace ran through the network, with what came out. *)
Definition forwards (tr : list (event Image Outputs)) : list (batch Image * Outputs) :=
  flat_map (fun ev => match ev with EvForward b out => [(b, out)] | _ => [] end) tr.

(** The loss of each batch of a trace, in order. *)
Definition batch_losses (tr : list (event Image Outputs)) : list float :=
  map (fun bo => criterion_item E (snd bo) (targets (fst bo))) (forwards tr).

(** The sum of per-batch losses, accumulated from [0] as the passes do. *)
Definition sum_from (s : num) (ls : list float) : num :=
  fold_left (fun acc l => add acc (Float l)) ls s.

Definition sum_losses (ls : list float) : num := sum_from (Int 0) ls.

(** Correct predictions and samples over all batches of a trace. *)
Definition correct_predictions (tr : list (event Image Outputs)) : Z :=
  fold_right Z.add 0
    (map (fun bo => count_eq (outputs_argmax E (snd bo)) (targets (fst bo))) (forwards tr)).

Definition samples_seen (tr : list (event Image Outputs)) : Z :=
  fold_right Z.add 0 (map (fun bo => len (targets (fst bo))) (forwards tr)).

(** The counters after batch [b] with index [i] gave [out]. *)
Definition tallied (i : Z) (b : batch Image) (out : Outputs) (c : counters) : counters :=
  Counters (add (run_loss c) (Float (criterion_item E out (targets b))))
           (n_correct c + count_eq (outputs_argmax E out) (targets b))
           (n_total c + len (targets b))
           (Some i).

(** What the loop lemmas ask of a loop body: that a body that returns
    has run the batch once and tallied it, that it returns on a batch
    with samples, and that its calls all satisfy [P]. *)
Definition body_inv
           (body : counters -> Z * batch Image -> @Prog Image Outputs World counters)
  : Prop :=
  forall c i b w c' w' tr,
    body c (i, b) w = (Ok c', w', tr) ->
    exists out, forwards tr = [(b, out)] /\ c' = tallied i b out c /\ n_total c' <> 0.

Definition body_total
           (body : counters -> Z * batch Image -> @Prog Image Outputs World counters)
  : Prop :=
  forall c i b w,
    0 <= i -> 0 <= n_total c -> targets b <> [] ->
    exists c' w' tr, body c (i, b) w = (Ok c', w', tr).

Definition body_calls (P : event Image Outputs -> bool)
           (body : counters -> Z * batch Image -> @Prog Image Outputs World counters)
  : Prop :=
  forall c ib w, Forall (fun e => P e = true) (calls (body c ib w)).

(** The calls of a loop body. *)
Definition is_train_batch_event (ev : event Image Outputs) : bool :=
  match ev with
  | EvZeroGrad | EvForward _ _ | EvBackward | EvStep | EvProgressBar _ _ _ _ _ _ => true
  | _ => false
  end.

Definition is_eval_batch_event (ev : event Image Outputs) : bool :=
  match ev with
  | EvForward _ _ | EvProgressBar _ _ _ _ _ _ => true
  | _ => false
  end.

Definition is_switch (ev : event Image Outputs) : bool :=
  match ev with
  | EvMoveToBase | EvMoveToOvershoot => true
  | _ => false
  end.

(** A call [test] makes only on an [SGDO] optimizer. *)
Definition switch_event (o : optimizer) (e : event Image Outputs)
  : list (event Image Outputs) :=
  if is_SGDO o then [e] else [].

(** The calls of the data section, lines 115-123. *)
Definition is_data_loading (ev : event Image Outputs) : bool :=
  match ev with
  | EvDataset _ | EvDataLoader _ _ _ => true
  | _ => false
  end.

(** The end-of-epoch calls, lines 182-187. *)
Definition is_bookkeeping (ev : event Image Outputs) : bool :=
  match ev with
  | EvSchedulerStep | EvStatsAppend _ | EvAddScalar _ _ _ => true
  | _ => false
  end.

Definition bookkeeping_of (epoch : Z) (r : dict) : list (event Image Outputs) :=
  EvSchedulerStep :: EvStatsAppend r
    :: map (fun kv => EvAddScalar (fst kv) (snd kv) epoch) r.

(** The calls of [train] and [test]. *)
Definition is_pass_event (ev : event Image Outputs) : bool :=
  match ev with
  | EvPrint _ | EvNetTrain | EvNetEval | EvIter _ | EvMoveToBase | EvMoveToOvershoot
  | EvZeroGrad | EvForward _ _ | EvBackward | EvStep | EvProgressBar _ _ _ _ _ _ => true
  | _ => false
  end.

(** The calls of the epoch loop. *)
Definition is_epoch_event (ev : event Image Outputs) : bool :=
  is_pass_event ev || is_bookkeeping ev.

(** The calls of the model dispatch. *)
Definition is_build_event (ev : event Image Outputs) : bool :=
  match ev with
  | EvPrint _ | EvBuild _ => true
  | _ => false
  end.

(** What a run calls before the model dispatch, lines 93-130. *)
Definition setup_calls (a : args) (seed : Z) : list (event Image Outputs) :=
  [EvManualSeed (11 * seed);
   EvMakeDirs (base_dir E a);
   EvSummaryWriter (log_dir E a seed);
   EvCopy (script_path E) (path_join (base_dir E a) "main.py");
   EvPrint "==> Preparing data..";
   EvDataset true; EvDataLoader true 128 true;
   EvDataset false; EvDataLoader false 100 false;
   EvPrint "==> Building model.."].

(** What a run calls between the model dispatch and the epoch loop,
    lines 165-177. *)
Definition configure_calls (a : args) : list (event Image Outputs) :=
  EvToDevice (cuda_available E)
    :: (if cuda_available E then [EvDataParallel; EvCudnnBenchmark] else [])
    ++ [EvCriterion; EvOptimizer (make_optimizer a); EvScheduler (Z.of_nat epochs)].

(** A sequence of epochs, one after the other from epoch [e]: each is a
    training pass that returns, then an evaluation pass that returns,
    then the end-of-epoch calls on the record of both. *)
Inductive epochs_from (opt : optimizer)
  : Z -> World -> list dict -> World -> list (event Image Outputs) -> Prop :=
| epochs_done e w : epochs_from opt e w [] w []
| epochs_next e w tl ta w1 t1 vl va w2 t2 recs w3 t3 :
    train E e w = (Ok (tl, ta), w1, t1) ->
    test E opt e w1 = (Ok (vl, va), w2, t2) ->
    epochs_from opt (e + 1)
                (worlds_after (bookkeeping_of e (epoch_record tl ta vl va)) w2)
                recs w3 t3 ->
    epochs_from opt e w (epoch_record tl ta vl va :: recs) w3
                (t1 ++ t2 ++ bookkeeping_of e (epoch_record tl ta vl va) ++ t3).

(** The calls that change gradients, optimizer buffers or parameters. *)
Definition is_update_event (ev : event Image Outputs) : bool :=
  match ev with
  | EvZeroGrad | EvBackward | EvStep => true
  | _ => false
  end.

(** The calls of a training step on one batch, lines 36-40. *)
Definition is_step_event (ev : event Image Outputs) : bool :=
  match ev with
  | EvZeroGrad | EvForward _ _ | EvBackward | EvStep => true
  | _ => false
  end.

Definition training_step (bo : batch Image * Outputs) : list (event Image Outputs) :=
  [EvZeroGrad; EvForward (fst bo) (snd bo); EvBackward; EvStep].

Definition is_progress (ev : event Image Outputs) : bool :=
  match ev with
  | EvProgressBar _ _ _ _ _ _ => true
  | _ => false
  end.

(** The networks a trace built and the files it copied. *)
Definition networks (tr : list (event Image Outputs)) : list arch :=
  flat_map (fun ev => match ev with EvBuild a => [a] | _ => [] end) tr.

Definition copies (tr : list (event Image Outputs)) : list (string * string) :=
  flat_map (fun ev => match ev with EvCopy src dst => [(src, dst)] | _ => [] end) tr.

(** The first batch of a loader has no sample. *)
Definition starts_hollow (bs : list (batch Image)) : bool :=
  match bs with
  | b :: _ => match targets b with [] => true | _ :: _ => false end
  | [] => false
  end.

(** The optimizers a trace constructed. *)
Definition optimizers (tr : list (event Image Outputs)) : list optimizer :=
  flat_map (fun ev => match ev with EvOptimizer o => [o] | _ => [] end) tr.

(** Where a trace opened tensorboard writers and wrote CSV files. *)
Definition log_dirs (tr : list (event Image Outputs)) : list string :=
  flat_map (fun ev => match ev with EvSummaryWriter d => [d] | _ => [] end) tr.

Definition csv_files (tr : list (event Image Outputs))
  : list (string * list string * list (list num)) :=
  flat_map (fun ev => match ev with EvToCsv p c r => [(p, c, r)] | _ => [] end) tr.

(** A torch [DataLoader] yields at least one sample per batch. *)
Definition batches_nonempty (bs : list (batch Image)) : Prop :=
  Forall (fun b => targets b <> []) bs.

(** Both loaders yield at least one batch, whenever they are iterated. *)
Definition loaders_yield : Prop :=
  forall (train : bool) (w : World),
    loader_batches E train w <> [] /\ batches_nonempty (loader_batches E train w).

(** The worlds in which [train] and [test] start iterating their loader. *)
Definition train_iter_world (epoch : Z) (w : World) : World :=
  worlds_after [EvPrint (epoch_header epoch); EvNetTrain] w.

Definition test_iter_world (opt : optimizer) (w : World) : World :=
  worlds_after (EvNetEval :: switch_event opt EvMoveToBase) w.

End Observations.

(** The identifiers the model dispatch compares [--model] with. *)
Definition supported_models : list string :=
  ["vgg"; "resnet"; "pre_act_resnet"; "googlenet"; "densenet"; "resnex";
   "mobilenet"; "mobilenet_v2"; "dpn"; "shufflenet"; "senet"; "shufflenet_v2";
   "efficientnet"; "regnetx"; "dla"].

(** The columns of an epoch record. *)
Definition stat_columns : list string :=
  ["train_loss"; "train_acc"; "val_loss"; "val_acc"].

(** ** A small environment to run the script on

    Images are integers, the network answers with one label per image
    (the parity of image plus optimizer steps taken), the loss of a batch
    is its number of wrong labels.  The training loader yields a batch of
    two and a final batch of one, the test loader one batch of two. *)

Module Toy.

Definition predict (w : Z) (imgs : list Z) : list Z :=
  map (fun x => (x + w) mod 2) imgs.

Definition wrong (out tgts : list Z) : float :=
  of_int (len tgts - count_eq out tgts).

Definition step (ev : event Z (list Z)) (w : Z) : Z :=
  match ev with
  | EvStep => w + 1
  | _ => w
  end.

Definition batches (train : bool) (w : Z) : list (batch Z) :=
  if train then [Batch [1; 2] [1; 1]; Batch [3] [1]]
  else [Batch [4; 5] [0; 0]].

Definition torch (loaders : bool -> Z -> list (batch Z)) : Env Z (list Z) Z := {|
  cuda_available := false;
  script_path := "/work/main.py";
  float_repr := fun _ => "0.5";
  world_step := step;
  loader_batches := loaders;
  net_forward := predict;
  criterion_item := wrong;
  outputs_argmax := fun out => out
|}.

Definition env : Env Z (list Z) Z := torch batches.

(** The same with loaders that yield nothing. *)
Definition env_no_data : Env Z (list Z) Z := torch (fun _ _ => []).

(** The same with loaders whose first batch has no sample, and with
    loaders whose last batch has none. *)
Definition env_hollow : Env Z (list Z) Z :=
  torch (fun _ _ => [Batch [] []; Batch [4; 5] [0; 0]]).

Definition env_gap : Env Z (list Z) Z :=
  torch (fun _ _ => [Batch [4; 5] [0; 0]; Batch [] []]).

Definition cli (name mdl : string) : args := Args name mdl f_0_1 default_overshoot.

(** [--overshoot 0.5] *)
Definition f_0_5 : float := S754_finite false 4503599627370496 (-53).
Definition cli_overshoot (name mdl : string) : args := Args name mdl f_0_1 (Float f_0_5).

(** [--overshoot -0.5] *)
Definition cli_negative (name mdl : string) : args :=
  Args name mdl f_0_1 (Float (SFopp f_0_5)).

Definition sgd : optimizer := SGD f_0_1 f_0_9 f_5e_4.
Definition sgdo : optimizer := SGDO f_0_1 f_0_9 f_5e_4 (Float f_0_5).

End Toy.

(** *** Strings, paths and data frames *)

Lemma append_assoc (s1 s2 s3 : string) :
  ((s1 ++ s2) ++ s3 = s1 ++ s2 ++ s3)%string.
Proof. induction s1 as [| c s1 IH]; simpl; [reflexivity | now rewrite IH]. Qed.



Lemma ends_with_sep_append (s t : string) :
  t <> ""%string -> ends_with_sep (s ++ t) = ends_with_sep t.
Proof.
  intros Ht. induction s as [| c s IH]; simpl; [reflexivity |].
  rewrite <- IH. destruct (s ++ t)%string eqn:Hst; [| reflexivity].
  destruct s; simpl in Hst; [contradiction | discriminate].
Qed.

Lemma path_join_relative (a b : string) :
  String.prefix "/" b = false -> a <> ""%string -> ends_with_sep a = false ->
  path_join a b = (a ++ "/" ++ b)%string.
Proof.
  intros Hb Ha He. unfold path_join. rewrite Hb, He.
  destruct (String.eqb_spec a ""); [contradiction | reflexivity].
Qed.

Lemma columns_of_records (stats : list dict) :
  stats <> [] -> Forall (fun r => keys r = stat_columns) stats ->
  columns stats = stat_columns.
Proof.
  unfold columns. intros Hne Hk.
  assert (H : forall seen, seen = [] \/ seen = stat_columns ->
            fold_left (fun seen d => add_keys seen (keys d)) stats seen
            = match stats with [] => seen | _ :: _ => stat_columns end).
  { clear Hne. induction Hk as [| r l Hr _ IH]; intros seen Hseen; [reflexivity |].
    cbn [fold_left]. rewrite Hr.
    assert (Hstep : add_keys seen stat_columns = stat_columns)
      by (destruct Hseen; subst; reflexivity).
    rewrite Hstep. rewrite IH by (right; reflexivity).
    destruct l; reflexivity. }
  rewrite H by (left; reflexivity). destruct stats; [contradiction | reflexivity].
Qed.


(** *** Comparisons with zero *)

Lemma eq_zero_not_gt (x : num) : Py.eq x (Int 0) = true -> gt x (Int 0) = false.
Proof.
  destruct x as [z | f]; unfold Py.eq, gt; simpl to_float.
  - intros H. apply Z.eqb_eq in H. subst. reflexivity.
  - change (of_int 0) with (S754_zero false).
    destruct f as [s | s | | s m e]; try destruct s; cbv; congruence.
Qed.

Lemma le_zero_not_gt (x : num) : le x (Int 0) = true -> gt x (Int 0) = false.
Proof.
  destruct x as [z | f]; unfold le, gt; simpl to_float.
  - intros H. apply Z.leb_le in H. apply Z.ltb_ge. exact H.
  - change (of_int 0) with (S754_zero false).
    destruct f as [s | s | | s m e]; try destruct s; cbv; congruence.
Qed.

(** ** Proofs *)

(** *** Arithmetic of the divisions *)

Lemma truediv_by_int (x : num) (z : Z) :
  z <> 0 -> exists f, truediv x (Int z) = Ok (Float f).
Proof.
  intros Hz. unfold truediv, is_zero.
  destruct (Z.eqb_spec z 0) as [H0 | _]; [contradiction |].
  destruct x; eexists; reflexivity.
Qed.

Lemma truediv_by_int_ok (x r : num) (z : Z) :
  truediv x (Int z) = Ok r -> z <> 0.
Proof.
  unfold truediv, is_zero.
  destruct (Z.eqb_spec z 0); [discriminate | auto].
Qed.

Lemma len_nonneg {A : Type} (l : list A) : 0 <= len l.
Proof. unfold len. lia. Qed.

Lemma len_pos {A : Type} (l : list A) : l <> [] -> 0 < len l.
Proof. destruct l; [congruence | unfold len; simpl; lia]. Qed.

Lemma len_cons {A : Type} (x : A) (l : list A) : len (x :: l) = 1 + len l.
Proof. unfold len. simpl List.length. lia. Qed.

Section Proofs.

Context {Image Outputs World : Type}.
Variable E : Env Image Outputs World.

(** *** Traces split along [++] *)

Lemma forwards_app (t1 t2 : list (event Image Outputs)) :
  forwards (t1 ++ t2) = forwards t1 ++ forwards t2.
Proof. unfold forwards. apply flat_map_app. Qed.

Lemma batch_losses_app (t1 t2 : list (event Image Outputs)) :
  batch_losses E (t1 ++ t2) = batch_losses E t1 ++ batch_losses E t2.
Proof. unfold batch_losses. rewrite forwards_app. apply map_app. Qed.

Lemma sum_from_app (s : num) (l1 l2 : list float) :
  sum_from (sum_from s l1) l2 = sum_from s (l1 ++ l2).
Proof. unfold sum_from. symmetry. apply fold_left_app. Qed.

Lemma sum_Z_app (l1 l2 : list Z) :
  fold_right Z.add 0 (l1 ++ l2) = fold_right Z.add 0 l1 + fold_right Z.add 0 l2.
Proof. induction l1 as [| x l1 IH]; simpl; [reflexivity | rewrite IH; lia]. Qed.

Lemma correct_predictions_app (t1 t2 : list (event Image Outputs)) :
  correct_predictions E (t1 ++ t2)
  = correct_predictions E t1 + correct_predictions E t2.
Proof.
  unfold correct_predictions. rewrite forwards_app, map_app. apply sum_Z_app.
Qed.

Lemma samples_seen_app (t1 t2 : list (event Image Outputs)) :
  samples_seen (t1 ++ t2) = samples_seen t1 + samples_seen t2.
Proof. unfold samples_seen. rewrite forwards_app, map_app. apply sum_Z_app. Qed.

(** *** One batch *)

Lemma tally_inv n i b out c w c' w' tr :
  tally E n i b out c w = (Ok c', w', tr) ->
  c' = tallied E i b out c /\ forwards tr = [] /\ n_total c' <> 0.
Proof.
  unfold tally, bind, lift, call, ret.
  destruct (truediv _ (Int (i + 1))) as [avg | e]; [| discriminate].
  destruct (truediv _ (Int (n_total c + len (targets b)))) as [pct | e] eqn:Hpct;
    [| discriminate].
  intros H. injection H as <- <- <-.
  repeat split. simpl. eapply truediv_by_int_ok, Hpct.
Qed.

Lemma tally_total n i b out c w :
  0 <= i -> 0 <= n_total c -> targets b <> [] ->
  exists w' tr, tally E n i b out c w = (Ok (tallied E i b out c), w', tr).
Proof.
  intros Hi Hc Hb. pose proof (len_pos _ Hb) as Hlen.
  unfold tally, bind, lift, call, ret.
  destruct (truediv_by_int
              (add (run_loss c) (Float (criterion_item E out (targets b)))) (i + 1))
    as [f1 ->]; [lia |].
  destruct (truediv_by_int
              (mul (Float f_100)
                   (Int (n_correct c + count_eq (outputs_argmax E out) (targets b))))
              (n_total c + len (targets b)))
    as [f2 ->]; [lia |].
  eexists _, _. reflexivity.
Qed.

Lemma tally_calls n i b out c w :
  Forall (fun e => is_eval_batch_event e = true) (calls (tally E n i b out c w)).
Proof.
  unfold tally, bind, lift, call, ret, calls.
  destruct (truediv _ (Int (i + 1))); [| constructor].
  destruct (truediv _ (Int (n_total c + len (targets b)))); [| constructor].
  simpl. repeat constructor.
Qed.

Lemma train_batch_inv n : body_inv E (train_batch E n).
Proof.
  intros c i b w c' w' tr. unfold train_batch, bind, call, forward. simpl fst. simpl snd.
  destruct (tally E n i b _ c _) as [[[c1 | e] w1] t1] eqn:Ht; [| discriminate].
  intros H. injection H as <- <- <-.
  apply tally_inv in Ht. destruct Ht as (-> & Hf & Hn).
  eexists. simpl. rewrite Hf. auto.
Qed.

Lemma test_batch_inv n : body_inv E (test_batch E n).
Proof.
  intros c i b w c' w' tr. unfold test_batch, bind, call, forward. simpl fst. simpl snd.
  destruct (tally E n i b _ c _) as [[[c1 | e] w1] t1] eqn:Ht; [| discriminate].
  intros H. injection H as <- <- <-.
  apply tally_inv in Ht. destruct Ht as (-> & Hf & Hn).
  eexists. simpl. rewrite Hf. auto.
Qed.

Lemma train_batch_total n : body_total (train_batch E n).
Proof.
  intros c i b w Hi Hc Hb. unfold train_batch, bind, call, forward. simpl fst. simpl snd.
  edestruct (tally_total n i b) as (w' & tr & ->); eauto.
Qed.

Lemma test_batch_total n : body_total (test_batch E n).
Proof.
  intros c i b w Hi Hc Hb. unfold test_batch, bind, call, forward. simpl fst. simpl snd.
  edestruct (tally_total n i b) as (w' & tr & ->); eauto.
Qed.

Lemma train_batch_calls n : body_calls is_train_batch_event (train_batch E n).
Proof.
  intros c [i b] w. unfold train_batch, bind, call, forward. simpl fst. simpl snd.
  match goal with |- context [tally E n i b ?o c ?w1] =>
    pose proof (tally_calls n i b o c w1) as Ht;
    destruct (tally E n i b o c w1) as [[r w2] t2] end.
  unfold calls in *. simpl in *.
  assert (Ht' : Forall (fun e => is_train_batch_event e = true) t2).
  { eapply Forall_impl; [| exact Ht]. intros [] H; simpl in *; congruence. }
  destruct r; simpl; repeat (constructor; [reflexivity |]); exact Ht'.
Qed.

Lemma test_batch_calls n : body_calls is_eval_batch_event (test_batch E n).
Proof.
  intros c [i b] w. unfold test_batch, bind, call, forward. simpl fst. simpl snd.
  match goal with |- context [tally E n i b ?o c ?w1] =>
    pose proof (tally_calls n i b o c w1) as Ht;
    destruct (tally E n i b o c w1) as [[r w2] t2] end.
  unfold calls in *. simpl in *.
  destruct r; simpl; repeat (constructor; [reflexivity |]); exact Ht.
Qed.


(** *** The loop of a pass *)

Lemma loop_inv body (Hb : body_inv E body) :
  forall bs i c w c' w' tr,
    for_fold (enumerate_from i bs) body c w = (Ok c', w', tr) ->
    map fst (forwards tr) = bs /\
    run_loss c' = sum_from (run_loss c) (batch_losses E tr) /\
    n_correct c' = n_correct c + correct_predictions E tr /\
    n_total c' = n_total c + samples_seen tr /\
    batch_idx c' = match bs with
                   | [] => batch_idx c
                   | _ :: _ => Some (i + len bs - 1)
                   end /\
    (bs <> [] -> n_total c' <> 0).
Proof.
  induction bs as [| b bs IH]; intros i c w c' w' tr.
  - simpl. unfold ret. intros H. injection H as <- <- <-.
    unfold correct_predictions, samples_seen. simpl.
    repeat split; try lia. congruence.
  - simpl. unfold bind at 1.
    destruct (body c (i, b) w) as [[[c1 | e] w1] t1] eqn:H1; [| discriminate].
    destruct (for_fold (enumerate_from (i + 1) bs) body c1 w1) as [[r w2] t2] eqn:H2.
    intros H. injection H as -> <- <-.
    apply Hb in H1. destruct H1 as (out & Hf & -> & Hn).
    apply IH in H2. destruct H2 as (Hm & Hl & Hc & Ht & Hi & Hz).
    rewrite forwards_app, batch_losses_app, correct_predictions_app, samples_seen_app.
    unfold batch_losses at 1, correct_predictions at 1, samples_seen at 1.
    rewrite Hf. simpl in *.
    repeat split.
    + now rewrite Hm.
    + exact Hl.
    + lia.
    + lia.
    + rewrite Hi. destruct bs as [| b' bs'].
      * f_equal. unfold len. simpl. lia.
      * f_equal. rewrite !len_cons. lia.
    + intros _. destruct bs as [| b' bs'].
      * rewrite Ht. unfold samples_seen.
        assert (Hnil : forwards t2 = []) by (destruct (forwards t2); [reflexivity | discriminate]).
        rewrite Hnil. simpl. lia.
      * apply Hz. discriminate.
Qed.

Lemma loop_total body (Hi : body_inv E body) (Ht : body_total body) :
  forall bs i c w,
    batches_nonempty bs -> 0 <= i -> 0 <= n_total c ->
    exists c' w' tr, for_fold (enumerate_from i bs) body c w = (Ok c', w', tr).
Proof.
  induction bs as [| b bs IH]; intros i c w Hbs Hi0 Hc.
  - simpl. unfold ret. eauto.
  - inversion Hbs as [| ? ? Hb Hbs']; subst.
    destruct (Ht c i b w Hi0 Hc Hb) as (c1 & w1 & t1 & H1).
    destruct (Hi _ _ _ _ _ _ _ H1) as (out & _ & -> & _).
    destruct (IH (i + 1) (tallied E i b out c) w1 Hbs') as (c2 & w2 & t2 & H2).
    + lia.
    + simpl. pose proof (len_nonneg (targets b)). lia.
    + simpl. unfold bind. rewrite H1, H2. eauto.
Qed.

Lemma loop_calls (P : event Image Outputs -> bool)
      (body : counters -> Z * batch Image -> @Prog Image Outputs World counters)
      (Hb : body_calls P body) :
  forall (l : list (Z * batch Image)) c (w : World),
    Forall (fun e => P e = true) (calls (for_fold l body c w)).
Proof.
  induction l as [| x l IH]; intros c w.
  - simpl. constructor.
  - simpl. unfold bind. pose proof (Hb c x w) as H1.
    destruct (body c x w) as [[[c1 | e] w1] t1]; unfold calls in *; simpl in *.
    + pose proof (IH c1 w1) as H2.
      destruct (for_fold l body c1 w1) as [[r w2] t2]. simpl in *.
      apply Forall_app. split; assumption.
    + exact H1.
Qed.

(** *** The return statement of a pass *)

Lemma pass_return_inv (c : counters) (w w' : World) l a (tr : list (event Image Outputs)) :
  pass_return c w = (Ok (l, a), w', tr) ->
  exists i, batch_idx c = Some i /\
            truediv (run_loss c) (Int (i + 1)) = Ok l /\
            truediv (mul (Float f_100) (Int (n_correct c))) (Int (n_total c)) = Ok a /\
            w' = w /\ tr = [].
Proof.
  unfold pass_return. destruct (batch_idx c) as [i |]; [| discriminate].
  unfold bind, lift, ret.
  destruct (truediv (run_loss c) _) as [x | e] eqn:Hx; [| discriminate].
  destruct (truediv (mul _ _) _) as [y | e] eqn:Hy; [| discriminate].
  intros H. injection H as <- <- <- <-.
  exists i. repeat split; assumption.
Qed.

Lemma pass_return_total (c : counters) (w : World) i :
  batch_idx c = Some i -> i + 1 <> 0 -> n_total c <> 0 ->
  exists l a, pass_return c w = (Ok (l, a), w, @nil (event Image Outputs)).
Proof.
  intros Hi Hn Ht. unfold pass_return. rewrite Hi. unfold bind, lift, ret.
  destruct (truediv_by_int (run_loss c) (i + 1) Hn) as [f1 ->].
  destruct (truediv_by_int (mul (Float f_100) (Int (n_correct c))) (n_total c) Ht)
    as [f2 ->].
  eauto.
Qed.

Lemma pass_return_unbound (c : counters) (w : World) :
  batch_idx c = None ->
  pass_return c w = (Raise (UnboundLocalError "batch_idx"), w, @nil (event Image Outputs)).
Proof. intros H. unfold pass_return. rewrite H. reflexivity. Qed.

(** *** [train] and [test] as a whole *)

Lemma train_unfold epoch w :
  train E epoch w =
  let w0 := train_iter_world E epoch w in
  let bs := loader_batches E true w0 in
  let pre := [EvPrint (epoch_header epoch); EvNetTrain; EvIter true] in
  match for_fold (enumerate bs) (train_batch E (len bs)) counters0
                 (world_step E (EvIter true) w0) with
  | (Ok c, w1, t1) =>
      match pass_return c w1 with
      | (r, w2, t2) => (r, w2, pre ++ t1 ++ t2)
      end
  | (Raise e, w1, t1) => (Raise e, w1, pre ++ t1)
  end.
Proof.
  unfold train, train_iter_world, worlds_after, bind, call, iterate. simpl.
  destruct (for_fold _ _ _ _) as [[[c | e] w1] t1]; [| reflexivity].
  destruct (pass_return c w1) as [[r w2] t2]. reflexivity.
Qed.

Lemma test_unfold opt epoch w :
  test E opt epoch w =
  let w0 := test_iter_world E opt w in
  let bs := loader_batches E false w0 in
  let pre := EvNetEval :: switch_event (Image:=Image) (Outputs:=Outputs) opt EvMoveToBase ++ [EvIter false] in
  match for_fold (enumerate bs) (test_batch E (len bs)) counters0
                 (world_step E (EvIter false) w0) with
  | (Ok c, w1, t1) =>
      match pass_return c (worlds_after E (switch_event (Image:=Image) (Outputs:=Outputs) opt EvMoveToOvershoot) w1) with
      | (r, w2, t2) => (r, w2, pre ++ t1 ++ switch_event (Image:=Image) (Outputs:=Outputs) opt EvMoveToOvershoot ++ t2)
      end
  | (Raise e, w1, t1) => (Raise e, w1, pre ++ t1)
  end.
Proof.
  unfold test, test_iter_world, worlds_after, switch_event, when, bind, call, iterate, ret.
  destruct (is_SGDO opt); simpl.
  - destruct (for_fold _ _ _ _) as [[[c | e] w1] t1]; [| reflexivity].
    destruct (pass_return c _) as [[r w2] t2]. reflexivity.
  - destruct (for_fold _ _ _ _) as [[[c | e] w1] t1]; [| reflexivity].
    destruct (pass_return c _) as [[r w2] t2]. reflexivity.
Qed.

Lemma pass_return_silent (c : counters) (w : World) :
  exists r, pass_return c w = (r, w, @nil (event Image Outputs)).
Proof.
  unfold pass_return. destruct (batch_idx c) as [i |]; [| unfold raise; eauto].
  unfold bind, lift, ret.
  destruct (truediv (run_loss c) _); [| eauto].
  destruct (truediv (mul _ _) _); eauto.
Qed.

Lemma samples_seen_nonneg (tr : list (event Image Outputs)) : 0 <= samples_seen tr.
Proof.
  unfold samples_seen. induction (forwards tr) as [| bo l IH]; simpl; [lia |].
  pose proof (len_nonneg (targets (fst bo))). lia.
Qed.

(** A loop that ran to its end over at least one batch leaves counters
    with which the return statement succeeds, and what it returns. *)
Lemma loop_then_return body (Hb : body_inv E body) bs c w w1 t1 (w2 : World) :
  bs <> [] ->
  for_fold (enumerate bs) body counters0 w = (Ok c, w1, t1) ->
  exists l a,
    pass_return c w2 = (Ok (l, a), w2, @nil (event Image Outputs)) /\
    batch_idx c = Some (len bs - 1) /\ n_total c = samples_seen t1 /\
    0 < samples_seen t1 /\ map fst (forwards t1) = bs /\
    truediv (sum_losses (batch_losses E t1)) (Int (len bs)) = Ok l /\
    truediv (mul (Float f_100) (Int (correct_predictions E t1))) (Int (samples_seen t1))
    = Ok a.
Proof.
  intros Hne Hloop. unfold enumerate in Hloop.
  apply (loop_inv body Hb) in Hloop. simpl in Hloop.
  destruct Hloop as (Hm & Hl & Hc & Ht & Hi & Hz).
  specialize (Hz Hne).
  assert (Hidx : batch_idx c = Some (len bs - 1)).
  { rewrite Hi. destruct bs; [congruence | reflexivity]. }
  pose proof (len_pos bs Hne) as Hlen.
  destruct (pass_return_total c w2 (len bs - 1) Hidx) as (l & a & Hret); [lia | exact Hz |].
  exists l, a. pose proof (samples_seen_nonneg t1) as Hs.
  apply pass_return_inv in Hret as Hinv.
  destruct Hinv as (i & Hi' & Hl' & Ha' & _ & _).
  rewrite Hidx in Hi'. injection Hi' as <-.
  replace (len bs - 1 + 1) with (len bs) in Hl' by lia.
  rewrite Hl in Hl'. rewrite Hc, Ht in Ha'. simpl in Ha'.
  repeat split; try assumption; lia.
Qed.

Lemma train_inv epoch w l a w' tr :
  train E epoch w = (Ok (l, a), w', tr) ->
  let bs := loader_batches E true (train_iter_world E epoch w) in
  bs <> [] /\ map fst (forwards tr) = bs /\ 0 < samples_seen tr /\
  truediv (sum_losses (batch_losses E tr)) (Int (len bs)) = Ok l /\
  truediv (mul (Float f_100) (Int (correct_predictions E tr))) (Int (samples_seen tr))
  = Ok a.
Proof.
  rewrite train_unfold. cbv zeta.
  destruct (for_fold _ _ _ _) as [[[c | e] w1] t1] eqn:Hloop; [| discriminate].
  destruct (pass_return c w1) as [[r w2] t2] eqn:Hret.
  intros H. injection H as -> <- <-.
  destruct (loader_batches E true (train_iter_world E epoch w)) as [| b bs] eqn:Hbs.
  - unfold enumerate in Hloop. simpl in Hloop. unfold ret in Hloop.
    injection Hloop as <- <- <-.
    rewrite pass_return_unbound in Hret by reflexivity. discriminate.
  - assert (Hne : b :: bs <> []) by discriminate.
    destruct (loop_then_return _ (train_batch_inv _) _ _ _ _ _ w1 Hne Hloop)
      as (l' & a' & Hret' & _ & _ & Hs & Hm & Hl & Ha).
    rewrite Hret' in Hret. injection Hret as <- <- <- <-.
    rewrite app_nil_r.
    unfold batch_losses, correct_predictions, samples_seen in *. simpl.
    repeat split; try assumption; discriminate.
Qed.

Lemma train_total epoch w :
  let bs := loader_batches E true (train_iter_world E epoch w) in
  bs <> [] -> batches_nonempty bs ->
  exists l a w' tr, train E epoch w = (Ok (l, a), w', tr).
Proof.
  cbv zeta. intros Hne Hbs. rewrite train_unfold. cbv zeta.
  set (bs := loader_batches E true (train_iter_world E epoch w)) in *.
  destruct (loop_total _ (train_batch_inv (len bs)) (train_batch_total (len bs)) _ 0 counters0
                       (world_step E (EvIter true) (train_iter_world E epoch w)) Hbs)
    as (c & w1 & t1 & Hloop); [lia | simpl; lia |].
  fold (enumerate bs) in Hloop. rewrite Hloop.
  destruct (loop_then_return _ (train_batch_inv _) _ _ _ _ _ w1 Hne Hloop)
    as (l & a & Hret & _).
  rewrite Hret. eauto.
Qed.

Lemma test_inv opt epoch w l a w' tr :
  test E opt epoch w = (Ok (l, a), w', tr) ->
  let bs := loader_batches E false (test_iter_world E opt w) in
  bs <> [] /\ map fst (forwards tr) = bs /\ 0 < samples_seen tr /\
  truediv (sum_losses (batch_losses E tr)) (Int (len bs)) = Ok l /\
  truediv (mul (Float f_100) (Int (correct_predictions E tr))) (Int (samples_seen tr))
  = Ok a.
Proof.
  rewrite test_unfold. cbv zeta.
  destruct (for_fold _ _ _ _) as [[[c | e] w1] t1] eqn:Hloop; [| discriminate].
  destruct (pass_return c _) as [[r w2] t2] eqn:Hret.
  intros H. injection H as -> <- <-.
  destruct (loader_batches E false (test_iter_world E opt w)) as [| b bs] eqn:Hbs.
  - unfold enumerate in Hloop. simpl in Hloop. unfold ret in Hloop.
    injection Hloop as <- <- <-.
    rewrite pass_return_unbound in Hret by reflexivity. discriminate.
  - assert (Hne : b :: bs <> []) by discriminate.
    destruct (loop_then_return _ (test_batch_inv _) _ _ _ _ _
                (worlds_after E (switch_event opt EvMoveToOvershoot) w1) Hne Hloop)
      as (l' & a' & Hret' & _ & _ & Hs & Hm & Hl & Ha).
    rewrite Hret' in Hret. injection Hret as <- <- <- <-.
    rewrite app_nil_r.
    match goal with |- context [forwards ?t] =>
      assert (Hf : forwards t = forwards t1) end.
    { change (forwards ((EvNetEval :: switch_event opt EvMoveToBase ++ [EvIter false])
                          ++ t1 ++ switch_event opt EvMoveToOvershoot) = forwards t1).
      rewrite !forwards_app. unfold switch_event.
      destruct (is_SGDO opt); simpl; apply app_nil_r. }
    unfold batch_losses, correct_predictions, samples_seen in *.
    rewrite Hf.
    repeat split; try assumption; discriminate.
Qed.

Lemma test_total opt epoch w :
  let bs := loader_batches E false (test_iter_world E opt w) in
  bs <> [] -> batches_nonempty bs ->
  exists l a w' tr, test E opt epoch w = (Ok (l, a), w', tr).
Proof.
  cbv zeta. intros Hne Hbs. rewrite test_unfold. cbv zeta.
  set (bs := loader_batches E false (test_iter_world E opt w)) in *.
  destruct (loop_total _ (test_batch_inv (len bs)) (test_batch_total (len bs)) _ 0 counters0
                       (world_step E (EvIter false) (test_iter_world E opt w)) Hbs)
    as (c & w1 & t1 & Hloop); [lia | simpl; lia |].
  fold (enumerate bs) in Hloop. rewrite Hloop.
  destruct (loop_then_return _ (test_batch_inv _) _ _ _ _ _
              (worlds_after E (switch_event opt EvMoveToOvershoot) w1) Hne Hloop)
    as (l & a & Hret & _).
  rewrite Hret. eauto.
Qed.

(** *** The claims about one pass *)


(** C5, as the script has it.  The accuracy that [train] and [test]
    return is a percentage: [100.] times the number of correct
    predictions of the pass, divided by the number of samples of the
    pass, in this order of operations. *)
Theorem accuracy_is_percentage_of_correct (opt : optimizer) (epoch : Z) (w : World) :
  (forall l a w' tr,
      train E epoch w = (Ok (l, a), w', tr) ->
      map fst (forwards tr) = loader_batches E true (train_iter_world E epoch w) /\
      truediv (mul (Float f_100) (Int (correct_predictions E tr))) (Int (samples_seen tr))
      = Ok a) /\
  (forall l a w' tr,
      test E opt epoch w = (Ok (l, a), w', tr) ->
      map fst (forwards tr) = loader_batches E false (test_iter_world E opt w) /\
      truediv (mul (Float f_100) (Int (correct_predictions E tr))) (Int (samples_seen tr))
      = Ok a).
Proof.
  split; intros l a w' tr Hrun.
  - apply train_inv in Hrun. cbv zeta in Hrun. tauto.
  - apply test_inv in Hrun. cbv zeta in Hrun. tauto.
Qed.

(** C10.  A pass over a loader that yields no batch raises
    [UnboundLocalError] for [batch_idx] instead of returning; after a
    loop over at least one batch, [batch_idx + 1] and [total] are
    positive and the return statement returns its pair. *)
Theorem pass_requires_batches (opt : optimizer) (epoch : Z) (w : World) :
  (loader_batches E true (train_iter_world E epoch w) = [] ->
   result (train E epoch w) = Raise (UnboundLocalError "batch_idx")) /\
  (loader_batches E false (test_iter_world E opt w) = [] ->
   result (test E opt epoch w) = Raise (UnboundLocalError "batch_idx")) /\
  (forall bs c (w0 w1 : World) t1,
      bs <> [] ->
      for_fold (enumerate bs) (train_batch E (len bs)) counters0 w0 = (Ok c, w1, t1) ->
      exists i l a,
        batch_idx c = Some i /\ 0 < i + 1 /\ 0 < n_total c /\
        forall w2 : World,
          pass_return c w2 = (Ok (l, a), w2, @nil (event Image Outputs))) /\
  (forall bs c (w0 w1 : World) t1,
      bs <> [] ->
      for_fold (enumerate bs) (test_batch E (len bs)) counters0 w0 = (Ok c, w1, t1) ->
      exists i l a,
        batch_idx c = Some i /\ 0 < i + 1 /\ 0 < n_total c /\
        forall w2 : World,
          pass_return c w2 = (Ok (l, a), w2, @nil (event Image Outputs))).
Proof.
  assert (Hloop : forall body, body_inv E body ->
            forall bs c (w0 w1 : World) t1,
              bs <> [] ->
              for_fold (enumerate bs) body counters0 w0 = (Ok c, w1, t1) ->
              exists i l a,
                batch_idx c = Some i /\ 0 < i + 1 /\ 0 < n_total c /\
                forall w2 : World,
                  pass_return c w2 = (Ok (l, a), w2, @nil (event Image Outputs))).
  { intros body Hb bs c w0 w1 t1 Hne Hrun.
    destruct (loop_then_return body Hb bs c w0 w1 t1 w1 Hne Hrun)
      as (l & a & Hret & Hi & Ht & Hs & _).
    exists (len bs - 1), l, a. pose proof (len_pos bs Hne).
    repeat split; [exact Hi | lia | lia |].
    intros w2.
    destruct (pass_return_total c w2 (len bs - 1) Hi) as (l2 & a2 & Hret2); [lia | lia |].
    apply pass_return_inv in Hret as (i1 & Hi1 & Hl1 & Ha1 & _).
    apply pass_return_inv in Hret2 as Hinv2.
    destruct Hinv2 as (i2 & Hi2 & Hl2 & Ha2 & _).
    rewrite Hi1 in Hi2. injection Hi2 as <-.
    rewrite Hl1 in Hl2. rewrite Ha1 in Ha2.
    injection Hl2 as <-. injection Ha2 as <-. exact Hret2. }
  split; [| split; [| split]].
  - intros Hbs. rewrite train_unfold. cbv zeta. rewrite Hbs. reflexivity.
  - intros Hbs. rewrite test_unfold. cbv zeta. rewrite Hbs. reflexivity.
  - intros bs. apply (Hloop _ (train_batch_inv (len bs))).
  - intros bs. apply (Hloop _ (test_batch_inv (len bs))).
Qed.

Lemma no_switch_among_batch_events (l : list (event Image Outputs)) :
  Forall (fun e => is_eval_batch_event e = true) l -> filter is_switch l = [].
Proof.
  induction 1 as [| e l He _ IH]; [reflexivity |].
  simpl. rewrite IH. destruct e; try discriminate He; reflexivity.
Qed.

(** C2.  In an evaluation pass over batches with samples, an [SGDO]
    optimizer is moved to base after [net.eval()] and before the first
    batch, and moved to overshoot after the last batch; with any other
    optimizer the pass makes neither call, whatever the loader yields.
    The two calls happen exactly when the optimizer is an [SGDO]. *)
Theorem test_switches_iff_SGDO (opt : optimizer) (epoch : Z) (w : World) :
  let bs := loader_batches E false (test_iter_world E opt w) in
  (is_SGDO opt = false -> filter is_switch (calls (test E opt epoch w)) = []) /\
  (batches_nonempty bs ->
   exists mid,
     Forall (fun e => is_eval_batch_event e = true) mid /\
     map fst (forwards mid) = bs /\
     (is_SGDO opt = true ->
      calls (test E opt epoch w)
      = [EvNetEval; EvMoveToBase; EvIter false] ++ mid ++ [EvMoveToOvershoot]) /\
     (is_SGDO opt = false ->
      calls (test E opt epoch w) = [EvNetEval; EvIter false] ++ mid) /\
     filter is_switch (calls (test E opt epoch w))
     = (if is_SGDO opt then [EvMoveToBase; EvMoveToOvershoot] else [])).
Proof.
  cbv zeta. rewrite test_unfold. cbv zeta.
  set (bs := loader_batches E false (test_iter_world E opt w)) in *.
  pose proof (loop_calls _ _ (test_batch_calls (len bs)) (enumerate bs) counters0
                (world_step E (EvIter false) (test_iter_world E opt w))) as Hcalls.
  split.
  - intros Hplain. unfold switch_event. rewrite Hplain.
    destruct (for_fold _ _ _ _) as [[[c | e] w1] t1];
      unfold calls in *; simpl in Hcalls;
      pose proof (no_switch_among_batch_events t1 Hcalls) as Hnone.
    + destruct (pass_return_silent c (worlds_after E [] w1)) as (r & ->).
      simpl. rewrite app_nil_r. exact Hnone.
    + simpl. exact Hnone.
  - intros Hbs.
    destruct (loop_total _ (test_batch_inv (len bs)) (test_batch_total (len bs)) bs 0
                counters0 (world_step E (EvIter false) (test_iter_world E opt w)) Hbs)
      as (c & w1 & t1 & Hloop); [lia | simpl; lia |].
    fold (enumerate bs) in Hloop. rewrite Hloop in *. unfold calls in Hcalls. simpl in Hcalls.
    destruct (pass_return_silent c (worlds_after E (switch_event opt EvMoveToOvershoot) w1))
      as (r & ->).
    unfold enumerate in Hloop.
    apply (loop_inv _ (test_batch_inv (len bs))) in Hloop. destruct Hloop as (Hm & _).
    exists t1. unfold calls, switch_event. simpl snd.
    pose proof (no_switch_among_batch_events t1 Hcalls) as Hnone.
    repeat split; try assumption.
    + intros ->. simpl. rewrite ?app_nil_r. reflexivity.
    + intros ->. simpl. rewrite ?app_nil_r. reflexivity.
    + destruct (is_SGDO opt); simpl; rewrite ?filter_app, Hnone; reflexivity.
Qed.

(** *** The main block *)

Lemma build_model_unsupported (name : string) (w : World) :
  ~ In name supported_models ->
  build_model E name w
  = (Raise (Exception ("Unsupported model name " ++ name)%string), w, []).
Proof.
  intros Hn. unfold build_model.
  repeat match goal with
         | |- context [String.eqb name ?s] =>
             destruct (String.eqb_spec name s) as [-> | _];
             [exfalso; apply Hn; simpl; tauto |]
         end.
  reflexivity.
Qed.

Lemma build_model_supported (name : string) (w : World) :
  In name supported_models ->
  exists tb,
    build_model E name w = (Ok tt, worlds_after E tb w, tb) /\
    Forall (fun e => is_build_event e = true) tb.
Proof.
  unfold supported_models. simpl In. intros H.
  repeat (destruct H as [<- | H];
          [match goal with
           | |- exists tb, build_model E ?n w = _ /\ _ =>
               exists (calls (build_model E n w));
               split; [reflexivity | unfold calls; simpl; repeat constructor]
           end |]).
  contradiction.
Qed.

Lemma run_unfold (a : args) (seed : Z) (w : World) :
  run E a seed w =
  match build_model E (model a) (worlds_after E (setup_calls E a seed) w) with
  | (Ok _, w1, tb) =>
      match for_fold (range epochs) (epoch_body E (make_optimizer a)) []
                     (worlds_after E (configure_calls E a) w1) with
      | (Ok stats, w2, te) =>
          let csv := EvToCsv (path_join (log_dir E a seed) "stats.csv")
                             (columns stats) (rows stats) in
          (Ok tt, world_step E csv w2,
           setup_calls E a seed ++ tb ++ configure_calls E a ++ te ++ [csv])
      | (Raise e, w2, te) =>
          (Raise e, w2, setup_calls E a seed ++ tb ++ configure_calls E a ++ te)
      end
  | (Raise e, w1, tb) => (Raise e, w1, setup_calls E a seed ++ tb)
  end.
Proof.
  unfold run, bind, call, when, ret, setup_calls, configure_calls, worlds_after.
  cbn [fold_left app].
  destruct (build_model E (model a) _) as [[[[] | e] w1] tb]; [| reflexivity].
  destruct (cuda_available E); cbn [fold_left app].
  - destruct (for_fold _ _ _ _) as [[[stats | e] w2] te]; reflexivity.
  - destruct (for_fold _ _ _ _) as [[[stats | e] w2] te]; reflexivity.
Qed.

Lemma main_unfold (a : args) (w : World) :
  main E a w =
  match run E a 0 (world_step E (EvManualSeed 0) w) with
  | (Ok _, w1, t1) =>
      match run E a 1 w1 with
      | (r, w2, t2) => (r, w2, EvManualSeed 0 :: t1 ++ t2)
      end
  | (Raise e, w1, t1) => (Raise e, w1, EvManualSeed 0 :: t1)
  end.
Proof.
  unfold main, for_each, bind at 1, call. change (range n_runs) with [0; 1].
  cbn [for_fold]. unfold bind, ret.
  destruct (run E a 0 _) as [[[[] | e] w1] t1]; [| reflexivity].
  destruct (run E a 1 w1) as [[[[] | e] w2] t2]; cbn [app]; rewrite ?app_nil_r; reflexivity.
Qed.

(** C1, as the script has it.  With a [--model] that the dispatch does
    not know, the script raises [Exception("Unsupported model name ...")]
    in its first run and stops there.  By then it has set up the log
    directory and built both datasets and both loaders; it has built no
    network and run no batch. *)
Theorem unsupported_model_aborts_after_data_setup (a : args) (w : World) :
  ~ In (model a) supported_models ->
  let tr := EvManualSeed 0 :: setup_calls E a 0 in
  main E a w
  = (Raise (Exception ("Unsupported model name " ++ model a)%string),
     worlds_after E tr w, tr) /\
  filter is_data_loading tr
  = [EvDataset true; EvDataLoader true 128 true;
     EvDataset false; EvDataLoader false 100 false] /\
  filter is_build_event tr
  = [EvPrint "==> Preparing data.."; EvPrint "==> Building model.."] /\
  forwards tr = [].
Proof.
  intros Hn. cbv zeta. split; [| repeat split].
  rewrite main_unfold, run_unfold.
  rewrite build_model_unsupported by assumption.
  rewrite app_nil_r. reflexivity.
Qed.

(** *** The epoch loop *)

Lemma batch_event_is_pass_event (l : list (event Image Outputs)) :
  Forall (fun e => is_train_batch_event e = true) l \/
  Forall (fun e => is_eval_batch_event e = true) l ->
  Forall (fun e => is_pass_event e = true) l.
Proof.
  intros [H | H]; (eapply Forall_impl; [| exact H]);
    intros [] He; simpl in *; congruence.
Qed.

Lemma train_calls epoch w :
  Forall (fun e => is_pass_event e = true) (calls (train E epoch w)).
Proof.
  rewrite train_unfold. cbv zeta.
  match goal with |- context [for_fold ?l ?body ?c ?w0] =>
    pose proof (loop_calls _ body (train_batch_calls _) l c w0) as Hc;
    destruct (for_fold l body c w0) as [[[c1 | e] w1] t1] end;
    unfold calls in *; simpl in Hc.
  - destruct (pass_return_silent c1 w1) as (r & ->). simpl. rewrite app_nil_r.
    repeat (constructor; [reflexivity |]). apply batch_event_is_pass_event. auto.
  - simpl. repeat (constructor; [reflexivity |]). apply batch_event_is_pass_event. auto.
Qed.

Lemma test_calls opt epoch w :
  Forall (fun e => is_pass_event e = true) (calls (test E opt epoch w)).
Proof.
  rewrite test_unfold. cbv zeta.
  assert (Hsw : forall e : event Image Outputs, is_switch e = true ->
                Forall (fun e' => is_pass_event e' = true) (switch_event opt e)).
  { intros e He. unfold switch_event. destruct (is_SGDO opt); repeat constructor.
    destruct e; try discriminate He; reflexivity. }
  match goal with |- context [for_fold ?l ?body ?c ?w0] =>
    pose proof (loop_calls _ body (test_batch_calls _) l c w0) as Hc;
    destruct (for_fold l body c w0) as [[[c1 | e] w1] t1] end;
    unfold calls in *; simpl in Hc.
  - destruct (pass_return_silent c1 (worlds_after E (switch_event opt EvMoveToOvershoot) w1))
      as (r & ->).
    simpl. rewrite app_nil_r. constructor; [reflexivity |].
    repeat (apply Forall_app; split); auto using batch_event_is_pass_event.
    all: repeat constructor.
  - simpl. constructor; [reflexivity |].
    repeat (apply Forall_app; split); auto using batch_event_is_pass_event.
    all: repeat constructor.
Qed.

Lemma epoch_body_run opt stats epoch w tl ta w1 t1 vl va w2 t2 :
  train E epoch w = (Ok (tl, ta), w1, t1) ->
  test E opt epoch w1 = (Ok (vl, va), w2, t2) ->
  let r := epoch_record tl ta vl va in
  epoch_body E opt stats epoch w
  = (Ok (stats ++ [r]), worlds_after E (bookkeeping_of epoch r) w2,
     t1 ++ t2 ++ bookkeeping_of epoch r).
Proof.
  intros Htrain Htest. cbv zeta. unfold epoch_body, bind at 1. rewrite Htrain.
  unfold bind at 1. rewrite Htest. simpl fst. simpl snd.
  rewrite last_last. reflexivity.
Qed.

Lemma epochs_run opt (Hy : loaders_yield E) :
  forall (n e : nat) (stats0 : list dict) (w : World),
  exists recs w' tr,
    for_fold (map Z.of_nat (seq e n)) (epoch_body E opt) stats0 w
    = (Ok (stats0 ++ recs), w', tr) /\
    epochs_from E opt (Z.of_nat e) w recs w' tr /\
    List.length recs = n.
Proof.
  induction n as [| n IH]; intros e stats0 w.
  - exists [], w, []. simpl. unfold ret. rewrite app_nil_r.
    repeat split. constructor.
  - destruct (train_total (Z.of_nat e) w) as (tl & ta & w1 & t1 & Htrain);
      [apply Hy | apply Hy |].
    destruct (test_total opt (Z.of_nat e) w1) as (vl & va & w2 & t2 & Htest);
      [apply Hy | apply Hy |].
    pose proof (epoch_body_run opt stats0 _ _ _ _ _ _ _ _ _ _ Htrain Htest) as Hbody.
    cbv zeta in Hbody.
    set (r := epoch_record tl ta vl va) in *.
    destruct (IH (S e) (stats0 ++ [r]) (worlds_after E (bookkeeping_of (Z.of_nat e) r) w2))
      as (recs & w' & tr & Hrest & Hfrom & Hlen).
    exists (r :: recs), w', (t1 ++ t2 ++ bookkeeping_of (Z.of_nat e) r ++ tr).
    split; [| split].
    + cbn [seq map for_fold]. unfold bind. rewrite Hbody, Hrest.
      rewrite <- app_assoc. simpl app. rewrite <- !app_assoc. reflexivity.
    + replace (Z.of_nat (S e)) with (Z.of_nat e + 1) in Hfrom by lia.
      econstructor; eassumption.
    + simpl. now rewrite Hlen.
Qed.

Lemma no_bookkeeping_among_pass_events (l : list (event Image Outputs)) :
  Forall (fun e => is_pass_event e = true) l -> filter is_bookkeeping l = [].
Proof.
  induction 1 as [| e l He _ IH]; [reflexivity |].
  simpl. rewrite IH. destruct e; try discriminate He; reflexivity.
Qed.

Lemma epochs_from_facts opt e w recs w' tr :
  epochs_from E opt e w recs w' tr ->
  filter is_bookkeeping tr
  = flat_map (fun er => bookkeeping_of (fst er) (snd er)) (enumerate_from e recs) /\
  Forall (fun ev => is_epoch_event ev = true) tr /\
  Forall (fun r => keys r = stat_columns) recs.
Proof.
  induction 1 as [| e w tl ta w1 t1 vl va w2 t2 recs w3 t3 Htrain Htest _ (IHf & IHe & IHk)].
  - repeat split; constructor.
  - pose proof (train_calls e w) as Hc1. rewrite Htrain in Hc1.
    pose proof (test_calls opt e w1) as Hc2. rewrite Htest in Hc2.
    unfold calls in *. simpl in Hc1, Hc2.
    split; [| split].
    + rewrite !filter_app, IHf.
      rewrite (no_bookkeeping_among_pass_events _ Hc1),
              (no_bookkeeping_among_pass_events _ Hc2).
      reflexivity.
    + repeat (apply Forall_app; split); try assumption.
      * eapply Forall_impl; [| exact Hc1]. intros ev H. unfold is_epoch_event.
        now rewrite H.
      * eapply Forall_impl; [| exact Hc2]. intros ev H. unfold is_epoch_event.
        now rewrite H.
      * repeat constructor.
    + constructor; [reflexivity | assumption].
Qed.

(** C7.  The epoch loop runs its 200 epochs in ascending order.  Each
    epoch is a training pass that returns, then an evaluation pass that
    returns, then one [scheduler.step()], then the append of the record
    of the four values of the two passes, then the four scalars logged
    under the epoch index; between these end-of-epoch calls of one epoch
    and the next no other such call happens.  [stats] ends with one
    record per epoch, in epoch order. *)
Theorem epochs_run_in_order (opt : optimizer) (w : World) :
  loaders_yield E ->
  exists stats w' tr,
    for_fold (range epochs) (epoch_body E opt) [] w = (Ok stats, w', tr) /\
    epochs_from E opt 0 w stats w' tr /\
    List.length stats = epochs /\
    Forall (fun r => keys r = stat_columns) stats /\
    filter is_bookkeeping tr
    = flat_map (fun er => bookkeeping_of (fst er) (snd er)) (enumerate stats).
Proof.
  intros Hy.
  destruct (epochs_run opt Hy epochs 0%nat [] w) as (recs & w' & tr & Hrun & Hfrom & Hlen).
  exists recs, w', tr.
  destruct (epochs_from_facts _ _ _ _ _ _ Hfrom) as (Hf & _ & Hk).
  repeat split; assumption.
Qed.

(** *** A whole run *)

Lemma quiet_build_events (l : list (event Image Outputs)) :
  Forall (fun e => is_build_event e = true) l ->
  log_dirs l = [] /\ csv_files l = [] /\ optimizers l = [].
Proof.
  induction 1 as [| e l He _ (IH1 & IH2 & IH3)]; [repeat split; reflexivity |].
  unfold log_dirs, csv_files, optimizers in *. simpl. rewrite IH1, IH2, IH3.
  destruct e; try discriminate He; repeat split; reflexivity.
Qed.

Lemma quiet_epoch_events (l : list (event Image Outputs)) :
  Forall (fun e => is_epoch_event e = true) l ->
  log_dirs l = [] /\ csv_files l = [].
Proof.
  induction 1 as [| e l He _ (IH1 & IH2)]; [split; reflexivity |].
  unfold log_dirs, csv_files in *. simpl. rewrite IH1, IH2.
  destruct e; try discriminate He; split; reflexivity.
Qed.

Lemma log_dirs_app (t1 t2 : list (event Image Outputs)) :
  log_dirs (t1 ++ t2) = log_dirs t1 ++ log_dirs t2.
Proof. unfold log_dirs. apply flat_map_app. Qed.

Lemma csv_files_app (t1 t2 : list (event Image Outputs)) :
  csv_files (t1 ++ t2) = csv_files t1 ++ csv_files t2.
Proof. unfold csv_files. apply flat_map_app. Qed.




(** *** The optimizer choice *)

Lemma optimizers_app (t1 t2 : list (event Image Outputs)) :
  optimizers (t1 ++ t2) = optimizers t1 ++ optimizers t2.
Proof. unfold optimizers. apply flat_map_app. Qed.

Lemma run_builds_optimizer (a : args) (seed : Z) (w : World) :
  In (model a) supported_models ->
  exists pre rest,
    calls (run E a seed w) = pre ++ EvOptimizer (make_optimizer a) :: rest /\
    optimizers pre = [].
Proof.
  intros Hm. rewrite run_unfold.
  destruct (build_model_supported (model a) (worlds_after E (setup_calls E a seed) w) Hm)
    as (tb & -> & Hb).
  destruct (quiet_build_events tb Hb) as (_ & _ & Hopt).
  exists (setup_calls E a seed ++ tb
            ++ EvToDevice (cuda_available E)
            :: (if cuda_available E then [EvDataParallel; EvCudnnBenchmark] else [])
            ++ [EvCriterion]).
  assert (Hpre : forall rest : list (event Image Outputs),
            setup_calls E a seed ++ tb ++ configure_calls E a ++ rest
            = (setup_calls E a seed ++ tb
                 ++ EvToDevice (cuda_available E)
                 :: (if cuda_available E then [EvDataParallel; EvCudnnBenchmark] else [])
                 ++ [EvCriterion])
                ++ EvOptimizer (make_optimizer a) :: EvScheduler (Z.of_nat epochs) :: rest).
  { intros rest. unfold configure_calls.
    destruct (cuda_available E); simpl; rewrite <- !app_assoc; reflexivity. }
  destruct (for_fold _ _ _ _) as [[[stats | e] w2] te]; cbv zeta; unfold calls; simpl snd.
  - eexists. split; [apply Hpre |].
    rewrite !optimizers_app, Hopt. destruct (cuda_available E); reflexivity.
  - eexists. split; [apply Hpre |].
    rewrite !optimizers_app, Hopt. destruct (cuda_available E); reflexivity.
Qed.

(** C3.  With [--overshoot] equal to [0] -- left at its default, or given
    as a zero -- the optimizer is [optim.SGD] with the learning rate of
    [--lr], momentum [0.9] and weight decay [5e-4], which is no [SGDO];
    it is the one optimizer a run with a supported model constructs. *)
Theorem zero_overshoot_builds_plain_SGD (a : args) (seed : Z) (w : World) :
  Py.eq (overshoot a) (Int 0) = true ->
  make_optimizer a = SGD (lr a) f_0_9 f_5e_4 /\
  is_SGDO (make_optimizer a) = false /\
  f_0_9 = fdiv (of_int 9) (of_int 10) /\
  f_5e_4 = fdiv (of_int 5) (of_int 10000) /\
  (In (model a) supported_models ->
   exists pre rest,
     calls (run E a seed w) = pre ++ EvOptimizer (SGD (lr a) f_0_9 f_5e_4) :: rest /\
     optimizers pre = []).
Proof.
  intros H.
  assert (Hopt : make_optimizer a = SGD (lr a) f_0_9 f_5e_4).
  { unfold make_optimizer. now rewrite (eq_zero_not_gt _ H). }
  rewrite Hopt.
  split; [reflexivity |]. split; [reflexivity |].
  split; [vm_compute; reflexivity |]. split; [vm_compute; reflexivity |].
  intros Hm. rewrite <- Hopt. apply run_builds_optimizer, Hm.
Qed.

(** C9.  With any [--overshoot] that is [<= 0] the optimizer is
    [optim.SGD]; it is an [SGDO] exactly when [--overshoot > 0] holds;
    and it is the one optimizer a run with a supported model
    constructs. *)
Theorem nonpositive_overshoot_builds_plain_SGD (a : args) (seed : Z) (w : World) :
  (le (overshoot a) (Int 0) = true ->
   make_optimizer a = SGD (lr a) f_0_9 f_5e_4 /\ is_SGDO (make_optimizer a) = false) /\
  (is_SGDO (make_optimizer a) = true <-> gt (overshoot a) (Int 0) = true) /\
  (gt (overshoot a) (Int 0) = true ->
   make_optimizer a = SGDO (lr a) f_0_9 f_5e_4 (overshoot a)) /\
  (In (model a) supported_models ->
   exists pre rest,
     calls (run E a seed w) = pre ++ EvOptimizer (make_optimizer a) :: rest /\
     optimizers pre = []).
Proof.
  split; [| split; [| split]].
  - intros H. unfold make_optimizer. rewrite (le_zero_not_gt _ H). split; reflexivity.
  - unfold make_optimizer. destruct (gt (overshoot a) (Int 0)); simpl; split; congruence.
  - unfold make_optimizer. intros ->. reflexivity.
  - apply run_builds_optimizer.
Qed.

End Proofs.

(** ** The claims on the small environment *)

Lemma toy_loaders_yield : loaders_yield Toy.env.
Proof.
  intros [] w; simpl; split; try discriminate; repeat constructor; discriminate.
Qed.


(** C5 as the spec words it fails: with one correct prediction out of
    three samples [train] reports 33.33..., where the plain ratio is
    0.33.... *)
Lemma accuracy_is_not_the_plain_ratio :
  exists l w' tr,
    train Toy.env 0 0
    = (Ok (l, Float (S754_finite false 4691249611844267 (-47))), w', tr) /\
    correct_predictions Toy.env tr = 1 /\
    samples_seen tr = 3 /\
    truediv (Int 1) (Int 3) = Ok (Float (S754_finite false 6004799503160661 (-54))) /\
    truediv (Int (correct_predictions Toy.env tr)) (Int (samples_seen tr))
    <> Ok (Float (S754_finite false 4691249611844267 (-47))).
Proof.
  do 3 eexists. split; [vm_compute; reflexivity |].
  repeat split; try (vm_compute; reflexivity).
  vm_compute. discriminate.
Qed.

(** C5 at work on both passes of the small environment. *)
Lemma accuracy_is_percentage_of_correct_witness :
  (exists l a w' tr,
      train Toy.env 0 0 = (Ok (l, a), w', tr) /\
      truediv (mul (Float f_100) (Int (correct_predictions Toy.env tr)))
              (Int (samples_seen tr)) = Ok a) /\
  (exists l a w' tr,
      test Toy.env Toy.sgd 0 0 = (Ok (l, a), w', tr) /\
      truediv (mul (Float f_100) (Int (correct_predictions Toy.env tr)))
              (Int (samples_seen tr)) = Ok a).
Proof.
  destruct (accuracy_is_percentage_of_correct Toy.env Toy.sgd 0 0) as [Htrain Htest].
  split.
  - destruct (train Toy.env 0 0) as [[[[l a] | e] w'] tr] eqn:Hrun;
      [| vm_compute in Hrun; discriminate].
    exists l, a, w', tr. split; [reflexivity |]. exact (proj2 (Htrain l a w' tr eq_refl)).
  - destruct (test Toy.env Toy.sgd 0 0) as [[[[l a] | e] w'] tr] eqn:Hrun;
      [| vm_compute in Hrun; discriminate].
    exists l, a, w', tr. split; [reflexivity |]. exact (proj2 (Htest l a w' tr eq_refl)).
Defined.

(** C10 at work: loaders that yield nothing, and the loops of the small
    environment. *)
Lemma pass_requires_batches_witness :
  result (train Toy.env_no_data 0 0) = Raise (UnboundLocalError "batch_idx") /\
  result (test Toy.env_no_data Toy.sgdo 0 0) = Raise (UnboundLocalError "batch_idx") /\
  (exists c w1 t1 i l a,
      for_fold (enumerate (Toy.batches true 0)) (train_batch Toy.env 2) counters0 0
      = (Ok c, w1, t1) /\
      batch_idx c = Some i /\ 0 < i + 1 /\ 0 < n_total c /\
      pass_return c w1 = (Ok (l, a), w1, @nil (event Z (list Z)))) /\
  (exists c w1 t1 i l a,
      for_fold (enumerate (Toy.batches false 0)) (test_batch Toy.env 1) counters0 0
      = (Ok c, w1, t1) /\
      batch_idx c = Some i /\ 0 < i + 1 /\ 0 < n_total c /\
      pass_return c w1 = (Ok (l, a), w1, @nil (event Z (list Z)))).
Proof.
  destruct (pass_requires_batches Toy.env_no_data Toy.sgdo 0 0) as (H1 & H2 & _).
  destruct (pass_requires_batches Toy.env Toy.sgdo 0 0) as (_ & _ & H3 & H4).
  split; [apply H1; reflexivity |]. split; [apply H2; reflexivity |]. split.
  - destruct (for_fold (enumerate (Toy.batches true 0)) (train_batch Toy.env 2) counters0 0)
      as [[[c | e] w1] t1] eqn:Hrun; [| vm_compute in Hrun; discriminate].
    destruct (H3 (Toy.batches true 0) c 0 w1 t1) as (i & l & a & Hi & Hp & Ht & Hret).
    + discriminate.
    + exact Hrun.
    + exists c, w1, t1, i, l, a. repeat split; auto.
  - destruct (for_fold (enumerate (Toy.batches false 0)) (test_batch Toy.env 1) counters0 0)
      as [[[c | e] w1] t1] eqn:Hrun; [| vm_compute in Hrun; discriminate].
    destruct (H4 (Toy.batches false 0) c 0 w1 t1) as (i & l & a & Hi & Hp & Ht & Hret).
    + discriminate.
    + exact Hrun.
    + exists c, w1, t1, i, l, a. repeat split; auto.
Defined.

(** C2 at work: an evaluation pass with an [SGDO] optimizer. *)
Lemma test_switches_iff_SGDO_witness :
  filter is_switch (calls (test Toy.env Toy.sgdo 0 0))
  = [EvMoveToBase; EvMoveToOvershoot].
Proof.
  destruct (test_switches_iff_SGDO Toy.env Toy.sgdo 0 0) as (_ & Hshape).
  destruct Hshape as (mid & _ & _ & _ & _ & Hf).
  - repeat constructor; discriminate.
  - exact Hf.
Defined.

(** C1 as the spec words it fails: by the time ["not_a_model"] is
    rejected, both datasets and both loaders have been built. *)
Lemma unsupported_model_error_follows_data_loading :
  let x := main Toy.env (Toy.cli "r" "not_a_model") 0 in
  result x = Raise (Exception "Unsupported model name not_a_model") /\
  filter is_data_loading (calls x)
  = [EvDataset true; EvDataLoader true 128 true;
     EvDataset false; EvDataLoader false 100 false] /\
  filter is_data_loading (calls x) <> [].
Proof. vm_compute. repeat split. discriminate. Qed.

(** C1 at work on ["not_a_model"]. *)
Lemma unsupported_model_aborts_after_data_setup_witness :
  main Toy.env (Toy.cli "r" "not_a_model") 0
  = (Raise (Exception "Unsupported model name not_a_model"), 0,
     EvManualSeed 0 :: setup_calls Toy.env (Toy.cli "r" "not_a_model") 0).
Proof.
  destruct (unsupported_model_aborts_after_data_setup Toy.env (Toy.cli "r" "not_a_model") 0)
    as (Hrun & _).
  - simpl. intuition discriminate.
  - exact Hrun.
Defined.

(** C3 at work on the default [--overshoot]. *)
Lemma zero_overshoot_builds_plain_SGD_witness :
  make_optimizer (Toy.cli "r" "resnet") = SGD f_0_1 f_0_9 f_5e_4.
Proof.
  destruct (zero_overshoot_builds_plain_SGD Toy.env (Toy.cli "r" "resnet") 0 0) as (H & _).
  - reflexivity.
  - exact H.
Defined.

(** C9 at work on [--overshoot -0.5] and [--overshoot 0.5]. *)
Lemma nonpositive_overshoot_builds_plain_SGD_witness :
  make_optimizer (Toy.cli_negative "r" "resnet") = SGD f_0_1 f_0_9 f_5e_4 /\
  make_optimizer (Toy.cli_overshoot "r" "resnet") = Toy.sgdo.
Proof.
  destruct (nonpositive_overshoot_builds_plain_SGD Toy.env (Toy.cli_negative "r" "resnet") 0 0)
    as (Hle & _ & _).
  destruct (nonpositive_overshoot_builds_plain_SGD Toy.env (Toy.cli_overshoot "r" "resnet") 0 0)
    as (_ & _ & Hgt & _).
  split.
  - apply Hle. reflexivity.
  - apply Hgt. reflexivity.
Defined.

(** C7 at work: the 200 epochs of the small environment. *)
Lemma epochs_run_in_order_witness :
  exists stats w' tr,
    for_fold (range epochs) (epoch_body Toy.env Toy.sgdo) [] 0 = (Ok stats, w', tr) /\
    List.length stats = 200%nat /\
    filter is_bookkeeping tr
    = flat_map (fun er => bookkeeping_of (fst er) (snd er)) (enumerate stats).
Proof.
  destruct (epochs_run_in_order Toy.env Toy.sgdo 0 toy_loaders_yield)
    as (stats & w' & tr & Hrun & _ & Hlen & _ & Hbook).
  exists stats, w', tr. repeat split; assumption.
Defined.



(** ** Further properties of the script *)

Lemma path_join_sep (base : string) :
  exists s,
    forall x, String.prefix "/" x = false -> path_join base x = (base ++ s ++ x)%string.
Proof.
  destruct (String.eqb base "" || ends_with_sep base)%bool eqn:Hc.
  - exists ""%string. intros x Hx. unfold path_join. rewrite Hx, Hc. reflexivity.
  - exists "/"%string. intros x Hx. unfold path_join. rewrite Hx, Hc. reflexivity.
Qed.

Lemma append_not_empty (x y : string) : y <> ""%string -> (x ++ y)%string <> ""%string.
Proof. destruct x; simpl; [auto | discriminate]. Qed.


Lemma append_cancel (s x y : string) : (s ++ x = s ++ y)%string -> x = y.
Proof.
  induction s as [| c s IH]; simpl; intros H; [exact H |].
  injection H as H. exact (IH H).
Qed.

Lemma count_eq_bounds (predicted tgts : list Z) :
  0 <= count_eq predicted tgts <= len tgts.
Proof.
  unfold count_eq, len. split; [lia |].
  apply inj_le.
  etransitivity; [apply filter_length_le |].
  rewrite length_combine. apply Nat.le_min_r.
Qed.

Section Further.

Context {Image Outputs World : Type}.
Variable E : Env Image Outputs World.

Lemma filter_none (P Q : event Image Outputs -> bool) (l : list (event Image Outputs)) :
  (forall e, P e = true -> Q e = false) ->
  Forall (fun e => P e = true) l -> filter Q l = [].
Proof.
  intros HPQ. induction 1 as [| e l He _ IH]; [reflexivity |].
  simpl. rewrite (HPQ e He). exact IH.
Qed.

(** *** The shape of a pass, whatever its outcome *)

Lemma train_shape epoch w :
  exists t1,
    calls (train E epoch w)
    = [EvPrint (epoch_header epoch); EvNetTrain; EvIter true] ++ t1 /\
    Forall (fun e => is_train_batch_event e = true) t1.
Proof.
  rewrite train_unfold. cbv zeta.
  match goal with |- context [for_fold ?l ?body ?c ?w0] =>
    pose proof (loop_calls _ body (train_batch_calls E _) l c w0) as Hc;
    destruct (for_fold l body c w0) as [[[c1 | e] w1] t1] end;
    unfold calls in *; simpl in Hc; exists t1.
  - destruct (pass_return_silent (Image:=Image) (Outputs:=Outputs) c1 w1) as (r & ->). simpl. rewrite app_nil_r. auto.
  - simpl. auto.
Qed.

Lemma test_shape opt epoch w :
  exists t1 post,
    calls (test E opt epoch w)
    = (EvNetEval :: switch_event opt EvMoveToBase ++ [EvIter false]) ++ t1 ++ post /\
    Forall (fun e => is_eval_batch_event e = true) t1 /\
    (post = [] \/ post = switch_event opt EvMoveToOvershoot).
Proof.
  rewrite test_unfold. cbv zeta.
  match goal with |- context [for_fold ?l ?body ?c ?w0] =>
    pose proof (loop_calls _ body (test_batch_calls E _) l c w0) as Hc;
    destruct (for_fold l body c w0) as [[[c1 | e] w1] t1] end;
    unfold calls in *; simpl in Hc; exists t1.
  - destruct (pass_return_silent (Image:=Image) (Outputs:=Outputs) c1 (worlds_after E (switch_event opt EvMoveToOvershoot) w1))
      as (r & ->).
    exists (switch_event opt EvMoveToOvershoot). simpl. rewrite app_nil_r. auto.
  - exists []. simpl. rewrite app_nil_r. auto.
Qed.

(** *** The model dispatch *)

Lemma supported_dec (name : string) :
  {In name supported_models} + {~ In name supported_models}.
Proof. apply in_dec, string_dec. Qed.

(** X1.  The dispatch returns exactly on the fifteen identifiers it
    compares with, and then it has built one network; on every other
    name it raises having built none. *)
Theorem dispatch_builds_one_network_iff_supported (name : string) (w : World) :
  (In name supported_models <-> result (build_model E name w) = Ok tt) /\
  (In name supported_models ->
   List.length (networks (calls (build_model E name w))) = 1%nat) /\
  (~ In name supported_models ->
   calls (build_model E name w) = [] /\
   result (build_model E name w)
   = Raise (Exception ("Unsupported model name " ++ name)%string)).
Proof.
  split; [| split].
  - split.
    + intros H. destruct (build_model_supported E name w H) as (tb & -> & _). reflexivity.
    + intros H. destruct (supported_dec name) as [Hin | Hout]; [exact Hin |].
      rewrite (build_model_unsupported E name w Hout) in H. discriminate.
  - unfold supported_models. simpl In. intros H.
    repeat (destruct H as [<- | H]; [reflexivity |]). contradiction.
  - intros H. rewrite (build_model_unsupported E name w H). split; reflexivity.
Qed.

(** *** What a pass touches *)

(** X4.  An evaluation pass never calls [zero_grad], [backward] or
    [step], whatever the optimizer, whatever the loader yields and
    whether the pass returns or raises. *)
Theorem evaluation_never_updates (opt : optimizer) (epoch : Z) (w : World) :
  filter is_update_event (calls (test E opt epoch w)) = [].
Proof.
  destruct (test_shape opt epoch w) as (t1 & post & -> & Ht1 & Hpost).
  rewrite !filter_app.
  rewrite (filter_none is_eval_batch_event is_update_event t1); [| | exact Ht1].
  - unfold switch_event.
    destruct Hpost as [-> | ->]; unfold switch_event; destruct (is_SGDO opt); reflexivity.
  - intros [] He; simpl in *; congruence.
Qed.

Lemma tally_progress n i b out c w :
  Forall (fun e => is_progress e = true) (calls (tally E n i b out c w)).
Proof.
  unfold tally, bind, lift, call, ret, calls.
  destruct (truediv _ (Int (i + 1))); [| constructor].
  destruct (truediv _ (Int (n_total c + len (targets b)))); [| constructor].
  simpl. repeat constructor.
Qed.

Lemma train_batch_steps n c i b w :
  let out := net_forward E (world_step E EvZeroGrad w) (inputs b) in
  filter is_step_event (calls (train_batch E n c (i, b) w)) = training_step (b, out) /\
  forwards (calls (train_batch E n c (i, b) w)) = [(b, out)].
Proof.
  cbv zeta. unfold train_batch, bind, call, forward. simpl fst. simpl snd.
  match goal with |- context [tally E n i b ?o c ?w1] =>
    pose proof (tally_progress n i b o c w1) as Ht;
    destruct (tally E n i b o c w1) as [[r w2] t2] end.
  unfold calls in *. simpl in Ht.
  assert (Hs : filter is_step_event t2 = []).
  { apply (filter_none is_progress is_step_event); [| exact Ht].
    intros e He. destruct e; simpl in *; congruence. }
  assert (Hf : forwards t2 = []).
  { clear Hs. induction Ht as [| e l He _ IH]; [reflexivity |].
    destruct e; try discriminate He. exact IH. }
  destruct r; simpl; rewrite Hs, Hf; split; reflexivity.
Qed.

(** X5.  A training pass runs, for each batch it reaches and in this
    order, [zero_grad], the forward pass, [backward] and [step], once
    each -- also for the batch on which the pass raises, since the
    running sums are taken after the step. *)
Theorem training_steps_once_per_batch (epoch : Z) (w : World) :
  filter is_step_event (calls (train E epoch w))
  = flat_map training_step (forwards (calls (train E epoch w))).
Proof.
  rewrite train_unfold. cbv zeta.
  set (bs := loader_batches E true (train_iter_world E epoch w)).
  set (w0 := world_step E (EvIter true) (train_iter_world E epoch w)).
  assert (Hloop : forall (l : list (Z * batch Image)) c (w1 : World),
            filter is_step_event (calls (for_fold l (train_batch E (len bs)) c w1))
            = flat_map training_step
                       (forwards (calls (for_fold l (train_batch E (len bs)) c w1)))).
  { induction l as [| [i b] l IH]; intros c w1; [reflexivity |].
    cbn [for_fold]. unfold bind.
    destruct (train_batch_steps (len bs) c i b w1) as (Hs & Hf). cbv zeta in Hs, Hf.
    destruct (train_batch E (len bs) c (i, b) w1) as [[[c1 | e] w2] t1];
      unfold calls in *; simpl in Hs, Hf.
    - specialize (IH c1 w2).
      destruct (for_fold l (train_batch E (len bs)) c1 w2) as [[r w3] t2].
      simpl in *. rewrite filter_app, forwards_app, flat_map_app, Hs, Hf, IH.
      simpl. rewrite ?app_nil_r. reflexivity.
    - simpl. rewrite Hs, Hf. simpl. rewrite ?app_nil_r. reflexivity. }
  specialize (Hloop (enumerate bs) counters0 w0).
  destruct (for_fold (enumerate bs) (train_batch E (len bs)) counters0 w0)
    as [[[c | e] w1] t1]; unfold calls in *; simpl in Hloop.
  - destruct (pass_return_silent (Image:=Image) (Outputs:=Outputs) c w1) as (r & ->). simpl. rewrite app_nil_r. exact Hloop.
  - simpl. exact Hloop.
Qed.


(** *** How a pass ends *)

Lemma tally_raises n i b out c w :
  0 <= i -> n_total c + len (targets b) = 0 ->
  tally E n i b out c w = (Raise ZeroDivisionError, w, []).
Proof.
  intros Hi H0. unfold tally, bind, lift, call, ret.
  destruct (truediv_by_int
              (add (run_loss c) (Float (criterion_item E out (targets b)))) (i + 1))
    as [f1 ->]; [lia |].
  rewrite H0. reflexivity.
Qed.

Lemma tally_returns n i b out c w :
  0 <= i -> n_total c + len (targets b) <> 0 ->
  exists avg pct,
    tally E n i b out c w
    = (Ok (tallied E i b out c),
       world_step E (EvProgressBar i n avg pct (n_correct (tallied E i b out c))
                                   (n_total (tallied E i b out c))) w,
       [EvProgressBar i n avg pct (n_correct (tallied E i b out c))
                      (n_total (tallied E i b out c))]) /\
    truediv (run_loss (tallied E i b out c)) (Int (i + 1)) = Ok avg /\
    truediv (mul (Float f_100) (Int (n_correct (tallied E i b out c))))
            (Int (n_total (tallied E i b out c))) = Ok pct.
Proof.
  intros Hi Hn. unfold tally, bind, lift, call, ret.
  destruct (truediv_by_int
              (add (run_loss c) (Float (criterion_item E out (targets b)))) (i + 1))
    as [f1 H1]; [lia |].
  destruct (truediv_by_int
              (mul (Float f_100)
                   (Int (n_correct c + count_eq (outputs_argmax E out) (targets b))))
              (n_total c + len (targets b)) Hn)
    as [f2 H2].
  rewrite H1, H2. exists (Float f1), (Float f2).
  split; [reflexivity | split; [exact H1 | exact H2]].
Qed.

(** What the two loop bodies have in common, as far as the outcome of a
    batch goes: with a total of zero samples so far the body raises,
    otherwise it returns, and its one progress-bar call shows the
    quotients of the counters it leaves. *)
Lemma batch_outcome (body : counters -> Z * batch Image -> @Prog Image Outputs World counters) n :
  body = train_batch E n \/ body = test_batch E n ->
  forall c i b w,
    0 <= i ->
    (n_total c + len (targets b) = 0 ->
     exists w' tr, body c (i, b) w = (Raise ZeroDivisionError, w', tr)) /\
    (n_total c + len (targets b) <> 0 ->
     exists c' w' tr avg pct,
       body c (i, b) w = (Ok c', w', tr) /\
       filter is_progress tr
       = [EvProgressBar i n avg pct (n_correct c') (n_total c')] /\
       truediv (run_loss c') (Int (i + 1)) = Ok avg /\
       truediv (mul (Float f_100) (Int (n_correct c'))) (Int (n_total c')) = Ok pct).
Proof.
  intros Hbody c i b w Hi. split.
  - intros H0. destruct Hbody as [-> | ->].
    + unfold train_batch, bind, call, forward. simpl fst. simpl snd.
      rewrite tally_raises by assumption. eauto.
    + unfold test_batch, bind, call, forward. simpl fst. simpl snd.
      rewrite tally_raises by assumption. eauto.
  - intros Hn. destruct Hbody as [-> | ->].
    + unfold train_batch, bind, call, forward. simpl fst. simpl snd.
      match goal with |- context [tally E n i b ?o c ?w1] =>
        destruct (tally_returns n i b o c w1 Hi Hn) as (avg & pct & -> & Ha & Hp) end.
      do 3 eexists. exists avg, pct. split; [reflexivity |]. simpl. auto.
    + unfold test_batch, bind, call, forward. simpl fst. simpl snd.
      match goal with |- context [tally E n i b ?o c ?w1] =>
        destruct (tally_returns n i b o c w1 Hi Hn) as (avg & pct & -> & Ha & Hp) end.
      do 3 eexists. exists avg, pct. split; [reflexivity |]. simpl. auto.
Qed.

Lemma body_inv_either (body : counters -> Z * batch Image -> @Prog Image Outputs World counters) n :
  body = train_batch E n \/ body = test_batch E n -> body_inv E body.
Proof. intros [-> | ->]; [apply train_batch_inv | apply test_batch_inv]. Qed.

(** Once a sample has been counted, the loop runs to its end. *)
Lemma loop_returns_after_first (body : counters -> Z * batch Image -> @Prog Image Outputs World counters) n :
  body = train_batch E n \/ body = test_batch E n ->
  forall bs i c w,
    0 <= i -> 0 < n_total c ->
    exists c' w' tr, for_fold (enumerate_from i bs) body c w = (Ok c', w', tr).
Proof.
  intros Hbody. induction bs as [| b bs IH]; intros i c w Hi Hc.
  - simpl. unfold ret. eauto.
  - pose proof (len_nonneg (targets b)) as Hlen.
    destruct (batch_outcome body n Hbody c i b w Hi) as (_ & Hok).
    destruct Hok as (c1 & w1 & t1 & avg & pct & H1 & _); [lia |].
    destruct (body_inv_either body n Hbody _ _ _ _ _ _ _ H1) as (out & _ & Hc1 & _).
    destruct (IH (i + 1) c1 w1) as (c2 & w2 & t2 & H2); [lia | subst c1; simpl; lia |].
    simpl. unfold bind. rewrite H1, H2. eauto.
Qed.

Lemma loop_outcome (body : counters -> Z * batch Image -> @Prog Image Outputs World counters) n :
  body = train_batch E n \/ body = test_batch E n ->
  forall bs w,
    (starts_hollow bs = true ->
     exists w' tr, for_fold (enumerate bs) body counters0 w = (Raise ZeroDivisionError, w', tr)) /\
    (bs <> [] -> starts_hollow bs = false ->
     exists c w' tr, for_fold (enumerate bs) body counters0 w = (Ok c, w', tr)).
Proof.
  intros Hbody bs w. destruct bs as [| b bs]; [split; [discriminate | congruence] |].
  unfold starts_hollow, enumerate. cbn [enumerate_from for_fold]. unfold bind.
  destruct (batch_outcome body n Hbody counters0 0 b w) as (Hzero & Hok); [lia |].
  split.
  - destruct (targets b) eqn:Hb; [| discriminate]. intros _.
    destruct Hzero as (w' & tr & ->); [reflexivity | eauto].
  - intros _ Hs.
    assert (Hb : targets b <> []) by (destruct (targets b); [discriminate | discriminate]).
    pose proof (len_pos _ Hb) as Hlen.
    destruct Hok as (c1 & w1 & t1 & avg & pct & H1 & _); [simpl; lia |].
    destruct (body_inv_either body n Hbody _ _ _ _ _ _ _ H1) as (out & _ & Hc1 & _).
    destruct (loop_returns_after_first body n Hbody bs (0 + 1) c1 w1)
      as (c2 & w2 & t2 & H2); [lia | subst c1; simpl; lia |].
    rewrite H1, H2. eauto.
Qed.

(** X2.  A pass raises [ZeroDivisionError] exactly when the first batch
    of its loader has no sample; with a first batch that has samples it
    returns its pair, empty batches later in the loader or not. *)
Theorem pass_outcome_depends_on_first_batch (opt : optimizer) (epoch : Z) (w : World) :
  let train_bs := loader_batches E true (train_iter_world E epoch w) in
  let test_bs := loader_batches E false (test_iter_world E opt w) in
  (starts_hollow train_bs = true ->
   result (train E epoch w) = Raise ZeroDivisionError) /\
  (train_bs <> [] -> starts_hollow train_bs = false ->
   exists l a, result (train E epoch w) = Ok (l, a)) /\
  (starts_hollow test_bs = true ->
   result (test E opt epoch w) = Raise ZeroDivisionError) /\
  (test_bs <> [] -> starts_hollow test_bs = false ->
   exists l a, result (test E opt epoch w) = Ok (l, a)).
Proof.
  cbv zeta. rewrite train_unfold, test_unfold. cbv zeta.
  set (bs1 := loader_batches E true (train_iter_world E epoch w)).
  set (bs2 := loader_batches E false (test_iter_world E opt w)).
  destruct (loop_outcome (train_batch E (len bs1)) (len bs1) (or_introl eq_refl) bs1
              (world_step E (EvIter true) (train_iter_world E epoch w))) as (Hz1 & Hok1).
  destruct (loop_outcome (test_batch E (len bs2)) (len bs2) (or_intror eq_refl) bs2
              (world_step E (EvIter false) (test_iter_world E opt w))) as (Hz2 & Hok2).
  split; [| split; [| split]].
  - intros H. destruct (Hz1 H) as (w' & tr & ->). reflexivity.
  - intros Hne H. destruct (Hok1 Hne H) as (c & w' & tr & Hloop). rewrite Hloop.
    destruct (loop_then_return E _ (train_batch_inv E _) _ _ _ _ _ w' Hne Hloop)
      as (l & a & -> & _).
    exists l, a. reflexivity.
  - intros H. destruct (Hz2 H) as (w' & tr & ->). reflexivity.
  - intros Hne H. destruct (Hok2 Hne H) as (c & w' & tr & Hloop). rewrite Hloop.
    destruct (loop_then_return E _ (test_batch_inv E _) _ _ _ _ _
                (worlds_after E (switch_event opt EvMoveToOvershoot) w') Hne Hloop)
      as (l & a & -> & _).
    exists l, a. reflexivity.
Qed.

(** X3.  An evaluation pass that raises in its loop leaves an [SGDO]
    optimizer at base: [move_to_base] has been called, [move_to_overshoot]
    is not. *)
Theorem aborted_evaluation_stays_at_base (opt : optimizer) (epoch : Z) (w : World) :
  is_SGDO opt = true ->
  starts_hollow (loader_batches E false (test_iter_world E opt w)) = true ->
  result (test E opt epoch w) = Raise ZeroDivisionError /\
  filter is_switch (calls (test E opt epoch w)) = [EvMoveToBase].
Proof.
  intros Hopt Hhollow. rewrite test_unfold. cbv zeta.
  set (bs := loader_batches E false (test_iter_world E opt w)) in *.
  destruct (loop_outcome (test_batch E (len bs)) (len bs) (or_intror eq_refl) bs
              (world_step E (EvIter false) (test_iter_world E opt w))) as (Hz & _).
  pose proof (loop_calls _ _ (test_batch_calls E (len bs)) (enumerate bs) counters0
                (world_step E (EvIter false) (test_iter_world E opt w))) as Hcalls.
  destruct (Hz Hhollow) as (w' & tr & Hloop). rewrite Hloop in *.
  unfold calls in *. simpl in Hcalls.
  split; [reflexivity |].
  unfold switch_event. rewrite Hopt. simpl.
  now rewrite (no_switch_among_batch_events tr Hcalls).
Qed.

(** *** What the progress bar shows *)

Lemma loop_last_progress (body : counters -> Z * batch Image -> @Prog Image Outputs World counters) n :
  body = train_batch E n \/ body = test_batch E n ->
  forall bs i c w c' w' tr,
    0 <= i -> bs <> [] ->
    for_fold (enumerate_from i bs) body c w = (Ok c', w', tr) ->
    exists pre avg pct,
      filter is_progress tr
      = pre ++ [EvProgressBar (i + len bs - 1) n avg pct (n_correct c') (n_total c')] /\
      truediv (run_loss c') (Int (i + len bs)) = Ok avg /\
      truediv (mul (Float f_100) (Int (n_correct c'))) (Int (n_total c')) = Ok pct.
Proof.
  intros Hbody. induction bs as [| b bs IH]; intros i c w c' w' tr Hi Hne; [congruence |].
  cbn [enumerate_from for_fold]. unfold bind.
  destruct (body c (i, b) w) as [[[c1 | e] w1] t1] eqn:H1; [| discriminate].
  destruct (for_fold (enumerate_from (i + 1) bs) body c1 w1) as [[r w2] t2] eqn:H2.
  intros H. injection H as -> <- <-.
  destruct (batch_outcome body n Hbody c i b w Hi) as (Hzero & Hok).
  destruct (Z.eq_dec (n_total c + len (targets b)) 0) as [H0 | Hn].
  { destruct (Hzero H0) as (wz & tz & Hz). rewrite Hz in H1. discriminate. }
  destruct (Hok Hn) as (c1' & w1' & t1' & avg & pct & H1' & Hp & Ha & Hpct).
  rewrite H1' in H1. injection H1 as -> -> ->.
  rewrite filter_app, Hp, len_cons.
  destruct bs as [| b' bs'].
  - simpl in H2. unfold ret in H2. injection H2 as <- <- <-.
    exists [], avg, pct. cbn [filter app].
    change (len (@nil (batch Image))) with 0.
    replace (i + (1 + 0) - 1) with i by lia.
    replace (i + (1 + 0)) with (i + 1) by lia.
    auto.
  - destruct (IH (i + 1) c1 w1 c' w2 t2) as (pre & avg2 & pct2 & Hp2 & Ha2 & Hpct2);
      [lia | discriminate | exact H2 |].
    exists (EvProgressBar i n avg pct (n_correct c1) (n_total c1) :: pre), avg2, pct2.
    rewrite Hp2.
    replace (i + (1 + len (b' :: bs')) - 1) with (i + 1 + len (b' :: bs') - 1) by lia.
    replace (i + (1 + len (b' :: bs'))) with (i + 1 + len (b' :: bs')) by lia.
    auto.
Qed.

Lemma pass_last_progress (body : counters -> Z * batch Image -> @Prog Image Outputs World counters)
      bs c w w1 t1 (w2 : World) l a :
  body = train_batch E (len bs) \/ body = test_batch E (len bs) ->
  for_fold (enumerate bs) body counters0 w = (Ok c, w1, t1) ->
  pass_return c w2 = (Ok (l, a), w2, @nil (event Image Outputs)) ->
  exists pre,
    filter is_progress t1
    = pre ++ [EvProgressBar (len bs - 1) (len bs) l a
                            (correct_predictions E t1) (samples_seen t1)].
Proof.
  intros Hbody Hloop Hret.
  apply pass_return_inv in Hret. destruct Hret as (i & Hi & Hl & Ha & _).
  assert (Hne : bs <> []).
  { intros ->. unfold enumerate in Hloop. simpl in Hloop. unfold ret in Hloop.
    injection Hloop as <- <- <-. discriminate. }
  unfold enumerate in Hloop.
  pose proof (loop_inv E body (body_inv_either body _ Hbody) _ _ _ _ _ _ _ Hloop)
    as (_ & _ & Hc & Ht & Hidx & _).
  destruct (loop_last_progress body _ Hbody bs 0 counters0 w c w1 t1)
    as (pre & avg & pct & Hp & Havg & Hpct); [lia | exact Hne | exact Hloop |].
  assert (Hi' : i = len bs - 1).
  { destruct bs as [| b0 bs0]; [congruence |]. cbn iota in Hidx.
    rewrite Hidx in Hi.
    replace (0 + len (b0 :: bs0) - 1) with (len (b0 :: bs0) - 1) in Hi by lia.
    congruence. }
  subst i. replace (len bs - 1 + 1) with (0 + len bs) in Hl by lia.
  rewrite Hl in Havg. injection Havg as <-.
  rewrite Ha in Hpct. injection Hpct as <-.
  simpl in Hc, Ht. rewrite Hc, Ht in Hp.
  exists pre. exact Hp.
Qed.

(** X6.  What a pass returns is what its last progress-bar call showed:
    the call for the last batch carries the index [len(loader) - 1], the
    returned loss and accuracy, and the counts of correct predictions and
    samples of the whole pass. *)
Theorem pass_returns_last_progress (opt : optimizer) (epoch : Z) (w : World) :
  (forall l a w' tr,
      train E epoch w = (Ok (l, a), w', tr) ->
      let bs := loader_batches E true (train_iter_world E epoch w) in
      exists pre,
        filter is_progress tr
        = pre ++ [EvProgressBar (len bs - 1) (len bs) l a
                                (correct_predictions E tr) (samples_seen tr)]) /\
  (forall l a w' tr,
      test E opt epoch w = (Ok (l, a), w', tr) ->
      let bs := loader_batches E false (test_iter_world E opt w) in
      exists pre,
        filter is_progress tr
        = pre ++ [EvProgressBar (len bs - 1) (len bs) l a
                                (correct_predictions E tr) (samples_seen tr)]).
Proof.
  split; intros l a w' tr; cbv zeta.
  - rewrite train_unfold. cbv zeta.
    destruct (for_fold _ _ _ _) as [[[c | e] w1] t1] eqn:Hloop; [| discriminate].
    destruct (pass_return_silent (Image:=Image) (Outputs:=Outputs) c w1) as (r & Hret).
    rewrite Hret. intros H. injection H as -> <- <-.
    destruct (pass_last_progress _ _ _ _ _ _ w1 l a (or_introl eq_refl) Hloop Hret)
      as (pre & Hp).
    exists pre. rewrite app_nil_r.
    unfold correct_predictions, samples_seen in *. simpl. exact Hp.
  - rewrite test_unfold. cbv zeta.
    destruct (for_fold _ _ _ _) as [[[c | e] w1] t1] eqn:Hloop; [| discriminate].
    destruct (pass_return_silent (Image:=Image) (Outputs:=Outputs) c
                (worlds_after E (switch_event opt EvMoveToOvershoot) w1)) as (r & Hret).
    rewrite Hret. intros H. injection H as -> <- <-.
    destruct (pass_last_progress _ _ _ _ _ _ _ l a (or_intror eq_refl) Hloop Hret)
      as (pre & Hp).
    exists pre. rewrite app_nil_r.
    match goal with |- context [correct_predictions E ?t] =>
      assert (Hf : forwards t = forwards t1) end.
    { change (forwards ((EvNetEval :: switch_event opt EvMoveToBase ++ [EvIter false])
                          ++ t1 ++ switch_event opt EvMoveToOvershoot) = forwards t1).
      rewrite !forwards_app. unfold switch_event.
      destruct (is_SGDO opt); simpl; apply app_nil_r. }
    unfold correct_predictions, samples_seen in *. rewrite Hf.
    change (filter is_progress
              ((EvNetEval :: switch_event opt EvMoveToBase ++ [EvIter false])
                 ++ t1 ++ switch_event opt EvMoveToOvershoot)
            = pre ++ [EvProgressBar (len (loader_batches E false (test_iter_world E opt w)) - 1)
                        (len (loader_batches E false (test_iter_world E opt w))) l a
                        (fold_right Z.add 0
                           (map (fun bo => count_eq (outputs_argmax E (snd bo)) (targets (fst bo)))
                                (forwards t1)))
                        (fold_right Z.add 0
                           (map (fun bo => len (targets (fst bo))) (forwards t1)))]).
    rewrite !filter_app. unfold switch_event.
    destruct (is_SGDO opt); simpl; rewrite ?app_nil_r; exact Hp.
Qed.

(** *** The counts behind an accuracy *)

Lemma correct_le_samples (tr : list (event Image Outputs)) :
  0 <= correct_predictions E tr <= samples_seen tr.
Proof.
  unfold correct_predictions, samples_seen.
  induction (forwards tr) as [| bo l IH]; simpl; [lia |].
  pose proof (count_eq_bounds (outputs_argmax E (snd bo)) (targets (fst bo))). lia.
Qed.

(** X7.  The accuracy a pass returns is [100. * correct / total] for
    whole numbers with [0 <= correct <= total] and [0 < total]: a pass
    never counts more correct predictions than samples. *)
Theorem accuracy_counts_are_bounded (opt : optimizer) (epoch : Z) (w : World) :
  (forall l a w' tr,
      train E epoch w = (Ok (l, a), w', tr) ->
      0 <= correct_predictions E tr <= samples_seen tr /\ 0 < samples_seen tr /\
      truediv (mul (Float f_100) (Int (correct_predictions E tr))) (Int (samples_seen tr))
      = Ok a) /\
  (forall l a w' tr,
      test E opt epoch w = (Ok (l, a), w', tr) ->
      0 <= correct_predictions E tr <= samples_seen tr /\ 0 < samples_seen tr /\
      truediv (mul (Float f_100) (Int (correct_predictions E tr))) (Int (samples_seen tr))
      = Ok a).
Proof.
  split; intros l a w' tr Hrun; pose proof (correct_le_samples tr) as Hb.
  - apply train_inv in Hrun. cbv zeta in Hrun. tauto.
  - apply test_inv in Hrun. cbv zeta in Hrun. tauto.
Qed.

(** *** The calls of a run, whatever its outcome *)

Lemma build_model_calls (name : string) (w : World) :
  Forall (fun e => is_build_event e = true) (calls (build_model E name w)).
Proof.
  destruct (supported_dec name) as [Hin | Hout].
  - destruct (build_model_supported E name w Hin) as (tb & -> & Hb). exact Hb.
  - rewrite (build_model_unsupported E name w Hout). constructor.
Qed.

Lemma epoch_body_calls (P : event Image Outputs -> bool) opt :
  (forall epoch w, Forall (fun e => P e = true) (calls (train E epoch w))) ->
  (forall epoch w, Forall (fun e => P e = true) (calls (test E opt epoch w))) ->
  (forall e, is_bookkeeping e = true -> P e = true) ->
  forall stats epoch w,
    Forall (fun e => P e = true) (calls (epoch_body E opt stats epoch w)).
Proof.
  intros Htrain Htest Hbook stats epoch w.
  pose proof (Htrain epoch w) as H1.
  destruct (train E epoch w) as [[[[tl ta] | e] w1] t1] eqn:Etrain.
  - pose proof (Htest epoch w1) as H2.
    destruct (test E opt epoch w1) as [[[[vl va] | e] w2] t2] eqn:Etest.
    + rewrite (epoch_body_run E opt stats epoch w _ _ _ _ _ _ _ _ Etrain Etest).
      unfold calls in *. simpl in H1, H2. simpl snd.
      repeat (apply Forall_app; split); try assumption.
      repeat constructor; apply Hbook; reflexivity.
    + unfold epoch_body, bind. rewrite Etrain, Etest.
      unfold calls in *. simpl in *. apply Forall_app. split; assumption.
  - unfold epoch_body, bind. rewrite Etrain. exact H1.
Qed.

Lemma epoch_loop_calls (P : event Image Outputs -> bool) opt :
  (forall epoch w, Forall (fun e => P e = true) (calls (train E epoch w))) ->
  (forall epoch w, Forall (fun e => P e = true) (calls (test E opt epoch w))) ->
  (forall e, is_bookkeeping e = true -> P e = true) ->
  forall (l : list Z) stats w,
    Forall (fun e => P e = true) (calls (for_fold l (epoch_body E opt) stats w)).
Proof.
  intros Htrain Htest Hbook. induction l as [| epoch l IH]; intros stats w.
  - constructor.
  - cbn [for_fold]. unfold bind.
    pose proof (epoch_body_calls P opt Htrain Htest Hbook stats epoch w) as H1.
    destruct (epoch_body E opt stats epoch w) as [[[stats1 | e] w1] t1];
      unfold calls in *; simpl in H1.
    + specialize (IH stats1 w1).
      destruct (for_fold l (epoch_body E opt) stats1 w1) as [[r w2] t2].
      simpl in *. apply Forall_app. split; assumption.
    + exact H1.
Qed.

(** A run stops in the model dispatch, or in the epoch loop, or it ends
    with its [to_csv]. *)
Lemma run_shape (P : event Image Outputs -> bool) (a : args) (seed : Z) (w : World) :
  (forall epoch w, Forall (fun e => P e = true) (calls (train E epoch w))) ->
  (forall epoch w,
      Forall (fun e => P e = true) (calls (test E (make_optimizer a) epoch w))) ->
  (forall e, is_bookkeeping e = true -> P e = true) ->
  exists tb,
    Forall (fun e => is_build_event e = true) tb /\
    ((exists e, result (run E a seed w) = Raise e /\
                calls (run E a seed w) = setup_calls E a seed ++ tb) \/
     (exists e te,
         result (run E a seed w) = Raise e /\
         Forall (fun e => P e = true) te /\
         calls (run E a seed w) = setup_calls E a seed ++ tb ++ configure_calls E a ++ te) \/
     (exists te stats,
         result (run E a seed w) = Ok tt /\
         Forall (fun e => P e = true) te /\
         calls (run E a seed w)
         = setup_calls E a seed ++ tb ++ configure_calls E a ++ te
             ++ [EvToCsv (path_join (log_dir E a seed) "stats.csv")
                         (columns stats) (rows stats)])).
Proof.
  intros Htrain Htest Hbook. rewrite run_unfold.
  pose proof (build_model_calls (model a) (worlds_after E (setup_calls E a seed) w)) as Hb.
  destruct (build_model E (model a) _) as [[[[] | e] w1] tb]; unfold calls in Hb; simpl in Hb;
    exists tb; (split; [exact Hb |]).
  - pose proof (epoch_loop_calls P (make_optimizer a) Htrain Htest Hbook (range epochs) []
                  (worlds_after E (configure_calls E a) w1)) as He.
    destruct (for_fold _ _ _ _) as [[[stats | e] w2] te]; unfold calls in He; simpl in He.
    + right. right. exists te, stats. repeat split; assumption.
    + right. left. exists e, te. repeat split; assumption.
  - left. exists e. split; reflexivity.
Qed.

Lemma pass_events_are_epoch_events (l : list (event Image Outputs)) :
  Forall (fun e => is_pass_event e = true) l ->
  Forall (fun e => is_epoch_event e = true) l.
Proof.
  apply Forall_impl. intros e H. unfold is_epoch_event. now rewrite H.
Qed.

Lemma run_shape_epoch (a : args) (seed : Z) (w : World) :
  exists tb,
    Forall (fun e => is_build_event e = true) tb /\
    ((exists e, result (run E a seed w) = Raise e /\
                calls (run E a seed w) = setup_calls E a seed ++ tb) \/
     (exists e te,
         result (run E a seed w) = Raise e /\
         Forall (fun e => is_epoch_event e = true) te /\
         calls (run E a seed w) = setup_calls E a seed ++ tb ++ configure_calls E a ++ te) \/
     (exists te stats,
         result (run E a seed w) = Ok tt /\
         Forall (fun e => is_epoch_event e = true) te /\
         calls (run E a seed w)
         = setup_calls E a seed ++ tb ++ configure_calls E a ++ te
             ++ [EvToCsv (path_join (log_dir E a seed) "stats.csv")
                         (columns stats) (rows stats)])).
Proof.
  apply run_shape.
  - intros epoch w0. apply pass_events_are_epoch_events, train_calls.
  - intros epoch w0. apply pass_events_are_epoch_events, test_calls.
  - intros e H. unfold is_epoch_event. rewrite H. apply orb_true_r.
Qed.

Lemma csv_files_configure (a : args) : csv_files (configure_calls E a) = [].
Proof. unfold configure_calls. destruct (cuda_available E); reflexivity. Qed.

Lemma stats_file_ends_completed_run (a : args) (seed : Z) (w : World) :
  result (run E a seed w) = Ok tt ->
  exists pre cols rows,
    calls (run E a seed w)
    = pre ++ [EvToCsv (path_join (log_dir E a seed) "stats.csv") cols rows] /\
    csv_files pre = [].
Proof.
  destruct (run_shape_epoch a seed w) as (tb & Hb & Hcases).
  destruct (quiet_build_events tb Hb) as (_ & Hcb & _).
  destruct Hcases as [(e & Hr & Hc) | [(e & te & Hr & He & Hc) | (te & stats & Hr & He & Hc)]];
    rewrite Hr, Hc; try discriminate.
  intros _. destruct (quiet_epoch_events te He) as (_ & Hce).
  exists (setup_calls E a seed ++ tb ++ configure_calls E a ++ te), (columns stats), (rows stats).
  split; [now rewrite <- !app_assoc |].
  rewrite !csv_files_app, Hcb, Hce, csv_files_configure. reflexivity.
Qed.

(** X8.  A run writes [stats.csv] once, as its last call, and only when
    all its epochs have returned: a run that raises -- in the model
    dispatch or in any epoch -- writes no [stats.csv], whatever epochs it
    had completed. *)
Theorem stats_written_only_by_completed_run (a : args) (seed : Z) (w : World) :
  (forall e, result (run E a seed w) = Raise e ->
             csv_files (calls (run E a seed w)) = []) /\
  (result (run E a seed w) = Ok tt ->
   exists pre cols rows,
     calls (run E a seed w)
     = pre ++ [EvToCsv (path_join (log_dir E a seed) "stats.csv") cols rows] /\
     csv_files pre = []).
Proof.
  destruct (run_shape_epoch a seed w) as (tb & Hb & Hcases).
  destruct (quiet_build_events tb Hb) as (_ & Hcb & _).
  destruct Hcases as [(e & Hr & Hc) | [(e & te & Hr & He & Hc) | (te & stats & Hr & He & Hc)]];
    rewrite Hr, Hc; split; try discriminate.
  - intros _ _. rewrite !csv_files_app, Hcb. reflexivity.
  - intros _ _. destruct (quiet_epoch_events te He) as (_ & Hce).
    rewrite !csv_files_app, Hcb, Hce, csv_files_configure. reflexivity.
  - intros _. destruct (quiet_epoch_events te He) as (_ & Hce).
    exists (setup_calls E a seed ++ tb ++ configure_calls E a ++ te), (columns stats), (rows stats).
    split; [now rewrite <- !app_assoc |].
    rewrite !csv_files_app, Hcb, Hce, csv_files_configure. reflexivity.
Qed.

(** *** The optimizer switches of a run *)

Lemma train_never_switches epoch w :
  Forall (fun e => negb (is_switch e) = true) (calls (train E epoch w)).
Proof.
  destruct (train_shape epoch w) as (t1 & -> & Ht1).
  apply Forall_app. split; [repeat constructor |].
  eapply Forall_impl; [| exact Ht1]. intros [] H; simpl in *; congruence.
Qed.

Lemma plain_test_never_switches opt epoch w :
  is_SGDO opt = false ->
  Forall (fun e => negb (is_switch e) = true) (calls (test E opt epoch w)).
Proof.
  intros Hopt. destruct (test_shape opt epoch w) as (t1 & post & -> & Ht1 & Hpost).
  unfold switch_event in *. rewrite Hopt in *.
  assert (Hnil : post = []) by (destruct Hpost; assumption). subst post.
  repeat (apply Forall_app; split); try (repeat constructor).
  eapply Forall_impl; [| exact Ht1]. intros [] H; simpl in *; congruence.
Qed.

Lemma no_switch_filter (l : list (event Image Outputs)) :
  Forall (fun e => negb (is_switch e) = true) l -> filter is_switch l = [].
Proof.
  apply (filter_none (fun e => negb (is_switch e)) is_switch).
  intros e H. now apply negb_true_iff in H.
Qed.

Lemma no_switch_in_build (l : list (event Image Outputs)) :
  Forall (fun e => is_build_event e = true) l ->
  Forall (fun e => negb (is_switch e) = true) l.
Proof. apply Forall_impl. intros [] H; simpl in *; congruence. Qed.

Lemma run_never_switches_plain (a : args) (seed : Z) (w : World) :
  is_SGDO (make_optimizer a) = false ->
  filter is_switch (calls (run E a seed w)) = [].
Proof.
  intros Hopt.
  destruct (run_shape (fun e => negb (is_switch e)) a seed w) as (tb & Hb & Hcases).
  - apply train_never_switches.
  - intros epoch w0. apply plain_test_never_switches, Hopt.
  - intros [] H; simpl in *; congruence.
  - apply no_switch_in_build, no_switch_filter in Hb.
    assert (Hconf : filter is_switch (configure_calls E a) = []).
    { unfold configure_calls. destruct (cuda_available E); reflexivity. }
    destruct Hcases as [(e & _ & Hc) | [(e & te & _ & He & Hc) | (te & stats & _ & He & Hc)]];
      rewrite Hc, !filter_app, Hb; try rewrite Hconf;
      try rewrite (no_switch_filter te He); reflexivity.
Qed.

(** X9.  With an [--overshoot] that is not greater than [0] the script
    calls neither [move_to_base] nor [move_to_overshoot], in no run and in
    no epoch, however the runs end. *)
Theorem plain_sgd_script_never_switches (a : args) (w : World) :
  gt (overshoot a) (Int 0) = false ->
  filter is_switch (calls (main E a w)) = [].
Proof.
  intros Hgt.
  assert (Hopt : is_SGDO (make_optimizer a) = false).
  { unfold make_optimizer. rewrite Hgt. reflexivity. }
  rewrite main_unfold.
  pose proof (run_never_switches_plain a 0 (world_step E (EvManualSeed 0) w) Hopt) as H0.
  destruct (run E a 0 _) as [[[[] | e] w1] t1]; unfold calls in *; simpl in H0.
  - pose proof (run_never_switches_plain a 1 w1 Hopt) as H1.
    destruct (run E a 1 w1) as [[r w2] t2]. unfold calls in *. simpl in *.
    rewrite filter_app, H0, H1. reflexivity.
  - simpl. exact H0.
Qed.

Lemma test_ok_switches opt epoch w l a w' tr :
  test E opt epoch w = (Ok (l, a), w', tr) ->
  filter is_switch tr
  = switch_event opt EvMoveToBase ++ switch_event opt EvMoveToOvershoot.
Proof.
  rewrite test_unfold. cbv zeta.
  match goal with |- context [for_fold ?l ?body ?c ?w0] =>
    pose proof (loop_calls _ body (test_batch_calls E _) l c w0) as Hc;
    destruct (for_fold l body c w0) as [[[c1 | e] w1] t1] end; [| discriminate].
  unfold calls in Hc. simpl in Hc.
  destruct (pass_return_silent (Image:=Image) (Outputs:=Outputs) c1
              (worlds_after E (switch_event opt EvMoveToOvershoot) w1)) as (r & ->).
  intros H. injection H as _ _ <-.
  change (filter is_switch
            ((EvNetEval :: switch_event opt EvMoveToBase ++ [EvIter false])
               ++ t1 ++ switch_event opt EvMoveToOvershoot ++ [])
          = switch_event opt EvMoveToBase ++ switch_event opt EvMoveToOvershoot).
  rewrite !filter_app, (no_switch_among_batch_events t1 Hc).
  unfold switch_event. destruct (is_SGDO opt); reflexivity.
Qed.

Lemma epochs_from_switches opt e w recs w' tr :
  epochs_from E opt e w recs w' tr ->
  filter is_switch tr
  = List.concat (repeat (switch_event opt EvMoveToBase ++ switch_event opt EvMoveToOvershoot)
                   (List.length recs)).
Proof.
  induction 1 as [| e w tl ta w1 t1 vl va w2 t2 recs w3 t3 Htrain Htest _ IH];
    [reflexivity |].
  pose proof (train_never_switches e w) as H1. rewrite Htrain in H1.
  unfold calls in H1. simpl in H1.
  rewrite !filter_app, (no_switch_filter t1 H1), (test_ok_switches _ _ _ _ _ _ _ Htest), IH.
  simpl. rewrite <- app_assoc. reflexivity.
Qed.

(** X10.  Over the epoch loop of a run with an [SGDO] optimizer the
    switches alternate: [move_to_base], [move_to_overshoot], once each
    per epoch, 200 times; every training pass starts with the optimizer
    at overshoot and the loop ends there. *)
Theorem switches_alternate_over_epochs (opt : optimizer) (w : World) :
  loaders_yield E ->
  is_SGDO opt = true ->
  filter is_switch (calls (for_fold (range epochs) (epoch_body E opt) [] w))
  = List.concat (repeat [EvMoveToBase; EvMoveToOvershoot] epochs).
Proof.
  intros Hy Hopt.
  destruct (epochs_run E opt Hy epochs 0%nat [] w) as (recs & w' & tr & Hrun & Hfrom & Hlen).
  change (map Z.of_nat (seq 0 epochs)) with (range epochs) in Hrun.
  rewrite Hrun. unfold calls. simpl snd.
  rewrite (epochs_from_switches _ _ _ _ _ _ Hfrom), Hlen.
  unfold switch_event. rewrite Hopt. reflexivity.
Qed.

(** *** What a completed run leaves on disk *)

Lemma epochs_from_rows opt e w recs w' tr :
  epochs_from E opt e w recs w' tr ->
  Forall (fun r => row stat_columns r = map snd r) recs.
Proof.
  induction 1; constructor; [reflexivity | assumption].
Qed.

Lemma no_bookkeeping_in_build (l : list (event Image Outputs)) :
  Forall (fun e => is_build_event e = true) l -> filter is_bookkeeping l = [].
Proof.
  apply (filter_none is_build_event is_bookkeeping).
  intros [] H; simpl in *; congruence.
Qed.

(** X11.  The rows of the [stats.csv] of a completed run are, epoch by
    epoch and column by column, the values that were logged with
    [add_scalar] for that epoch: [train_loss], [train_acc], [val_loss],
    [val_acc]. *)
Theorem stats_rows_are_logged_scalars (a : args) (seed : Z) (w : World) :
  In (model a) supported_models ->
  loaders_yield E ->
  exists w' tr stats,
    run E a seed w = (Ok tt, w', tr) /\
    List.length stats = epochs /\
    csv_files tr
    = [(path_join (log_dir E a seed) "stats.csv", stat_columns, map (map snd) stats)] /\
    filter is_bookkeeping tr
    = flat_map (fun er => bookkeeping_of (fst er) (snd er)) (enumerate stats).
Proof.
  intros Hm Hy. rewrite run_unfold.
  destruct (build_model_supported E (model a) (worlds_after E (setup_calls E a seed) w) Hm)
    as (tb & -> & Hb).
  destruct (epochs_run E (make_optimizer a) Hy epochs 0%nat []
              (worlds_after E (configure_calls E a) (worlds_after E tb
                 (worlds_after E (setup_calls E a seed) w))))
    as (stats & w2 & te & Hrun & Hfrom & Hlen).
  change (map Z.of_nat (seq 0 epochs)) with (range epochs) in Hrun.
  change ([] ++ stats) with stats in Hrun.
  rewrite Hrun. cbv zeta.
  destruct (epochs_from_facts E _ _ _ _ _ _ Hfrom) as (Hbook & He & Hk).
  pose proof (epochs_from_rows _ _ _ _ _ _ Hfrom) as Hrows.
  destruct (quiet_build_events tb Hb) as (_ & Hb2 & _).
  destruct (quiet_epoch_events te He) as (_ & He2).
  assert (Hcols : columns stats = stat_columns).
  { apply columns_of_records; [| exact Hk]. destruct stats; discriminate. }
  assert (Hvals : rows stats = map (map snd) stats).
  { unfold rows. rewrite Hcols. clear - Hrows.
    induction Hrows as [| r l Hr _ IH]; [reflexivity |]. cbn [map]. now rewrite Hr, IH. }
  eexists _, _, stats. split; [reflexivity |]. split; [exact Hlen |]. split.
  - rewrite !csv_files_app, Hb2, He2, csv_files_configure, Hcols, Hvals. reflexivity.
  - rewrite !filter_app, (no_bookkeeping_in_build tb Hb), Hbook.
    unfold configure_calls, enumerate.
    destruct (cuda_available E); simpl; rewrite app_nil_r; reflexivity.
Qed.

(** *** Where the script is copied *)

Lemma copies_app (t1 t2 : list (event Image Outputs)) :
  copies (t1 ++ t2) = copies t1 ++ copies t2.
Proof. unfold copies. apply flat_map_app. Qed.

Lemma no_copies (P : event Image Outputs -> bool) (l : list (event Image Outputs)) :
  (forall src dst, P (EvCopy src dst) = false) ->
  Forall (fun e => P e = true) l -> copies l = [].
Proof.
  intros HP. induction 1 as [| e l He _ IH]; [reflexivity |].
  unfold copies in *. simpl. rewrite IH.
  destruct e; try reflexivity. rewrite HP in He. discriminate.
Qed.

Lemma version_dir_is_below (a : args) (seed : Z) :
  seed = 0 \/ seed = 1 ->
  path_join (base_dir E a) "main.py" <> path_join (log_dir E a seed) "main.py".
Proof.
  intros Hseed. unfold log_dir.
  destruct (path_join_sep (base_dir E a)) as (s & Hs).
  assert (Hv : exists v, ("version_" ++ str_int (seed + 1))%string = v /\
                         String.prefix "/" v = false /\ v <> ""%string /\
                         ends_with_sep v = false /\
                         "main.py"%string <> (v ++ "/main.py")%string).
  { destruct Hseed; subst; eexists; (split; [reflexivity |]); repeat split; discriminate. }
  destruct Hv as (v & -> & Hrel & Hne & Hend & Hdiff).
  rewrite (Hs "main.py"%string eq_refl), (Hs v Hrel).
  rewrite path_join_relative.
  - rewrite !append_assoc. intros H.
    apply append_cancel in H. apply append_cancel in H. contradiction.
  - reflexivity.
  - rewrite <- append_assoc. apply append_not_empty, Hne.
  - rewrite <- append_assoc. rewrite ends_with_sep_append; assumption.
Qed.

Lemma log_dirs_differ (a : args) : log_dir E a 0 <> log_dir E a 1.
Proof.
  unfold log_dir. destruct (path_join_sep (base_dir E a)) as (s & Hs).
  rewrite !Hs by reflexivity. intros H.
  apply append_cancel in H. apply append_cancel in H. vm_compute in H. discriminate.
Qed.

(** X12.  Every run copies the script to [main.py] in the base directory
    [<run_name>_overshoot_<overshoot>], the same file for both runs and
    not a file of the [version_<seed+1>] directory, and it makes this one
    copy however it ends; the two runs log to different directories. *)
Theorem script_copy_goes_to_base_dir (a : args) :
  (forall seed w,
      copies (calls (run E a seed w))
      = [(script_path E, path_join (base_dir E a) "main.py")]) /\
  log_dir E a 0 <> log_dir E a 1 /\
  path_join (base_dir E a) "main.py" <> path_join (log_dir E a 0) "main.py" /\
  path_join (base_dir E a) "main.py" <> path_join (log_dir E a 1) "main.py".
Proof.
  split; [| split; [| split]].
  - intros seed w.
    destruct (run_shape_epoch a seed w) as (tb & Hb & Hcases).
    assert (Hcb : copies tb = []).
    { apply (no_copies is_build_event); [reflexivity | exact Hb]. }
    assert (Hconf : copies (configure_calls E a) = []).
    { unfold configure_calls. destruct (cuda_available E); reflexivity. }
    assert (Hte : forall te : list (event Image Outputs),
               Forall (fun e => is_epoch_event e = true) te -> copies te = []).
    { intros te Hte. apply (no_copies is_epoch_event te); [reflexivity | exact Hte]. }
    destruct Hcases as [(e & _ & Hc) | [(e & te & _ & He & Hc) | (te & stats & _ & He & Hc)]];
      rewrite Hc, !copies_app, Hcb; try rewrite Hconf; try rewrite (Hte te He); reflexivity.
  - apply log_dirs_differ.
  - apply version_dir_is_below. auto.
  - apply version_dir_is_below. auto.
Qed.

(** *** The second run *)

Lemma log_dirs_of_run (a : args) (seed : Z) (w : World) :
  log_dirs (calls (run E a seed w)) = [log_dir E a seed].
Proof.
  destruct (run_shape_epoch a seed w) as (tb & Hb & Hcases).
  destruct (quiet_build_events tb Hb) as (Hlb & _).
  assert (Hconf : log_dirs (configure_calls E a) = []).
  { unfold configure_calls. destruct (cuda_available E); reflexivity. }
  destruct Hcases as [(e & _ & Hc) | [(e & te & _ & He & Hc) | (te & stats & _ & He & Hc)]];
    rewrite Hc, !log_dirs_app, Hlb; try rewrite Hconf;
    try rewrite (proj1 (quiet_epoch_events te He)); reflexivity.
Qed.

Lemma writer_in_log_dirs (d : string) (l : list (event Image Outputs)) :
  In (EvSummaryWriter d) l -> In d (log_dirs l).
Proof.
  intros H. unfold log_dirs. apply in_flat_map.
  exists (EvSummaryWriter d). split; [exact H | left; reflexivity].
Qed.

Lemma log_dirs_in_writer (d : string) (l : list (event Image Outputs)) :
  In d (log_dirs l) -> In (EvSummaryWriter d) l.
Proof.
  unfold log_dirs. intros H. apply in_flat_map in H. destruct H as (ev & Hev & Hd).
  destruct ev; simpl in Hd; try contradiction.
  destruct Hd as [-> | []]. exact Hev.
Qed.

(** X13.  The script opens the tensorboard writer of the second run only
    after the first run has written its [stats.csv]: a first run that
    raises ends the script, and no second run is started. *)
Theorem second_run_follows_completed_first (a : args) (w : World) :
  In (EvSummaryWriter (log_dir E a 1)) (calls (main E a w)) ->
  exists before cols rows after,
    calls (main E a w)
    = before ++ EvToCsv (path_join (log_dir E a 0) "stats.csv") cols rows
        :: after /\
    ~ In (EvSummaryWriter (log_dir E a 1)) before /\
    In (EvSummaryWriter (log_dir E a 1)) after.
Proof.
  rewrite main_unfold.
  pose proof (log_dirs_of_run a 0 (world_step E (EvManualSeed 0) w)) as Hd0.
  pose proof (stats_file_ends_completed_run a 0 (world_step E (EvManualSeed 0) w)) as Hcsv.
  destruct (run E a 0 _) as [[[[] | e] w1] t1]; unfold calls, result in *; simpl in Hd0, Hcsv.
  - destruct (Hcsv eq_refl) as (pre & cols & rows & -> & _).
    destruct (run E a 1 w1) as [[r w2] t2]. simpl snd. intros Hin.
    assert (Hpre : ~ In (EvSummaryWriter (log_dir E a 1)) (EvManualSeed 0 :: pre)).
    { intros [Hbad | Hbad]; [discriminate |].
      assert (Hin0 : In (log_dir E a 1)
                        (log_dirs (pre ++ [EvToCsv (path_join (log_dir E a 0) "stats.csv")
                                                   cols rows]))).
      { apply writer_in_log_dirs, in_or_app. left. exact Hbad. }
      rewrite Hd0 in Hin0. destruct Hin0 as [Heq | []].
      exact (log_dirs_differ a Heq). }
    exists (EvManualSeed 0 :: pre), cols, rows, t2.
    split; [simpl; rewrite <- app_assoc; reflexivity |]. split; [exact Hpre |].
    destruct Hin as [Hbad | Hin]; [discriminate |].
    apply in_app_or in Hin. destruct Hin as [Hin | Hin]; [| exact Hin].
    apply in_app_or in Hin. destruct Hin as [Hin | [Hbad | []]]; [| discriminate].
    exfalso. apply Hpre. right. exact Hin.
  - simpl snd. intros [Hbad | Hin]; [discriminate |].
    apply writer_in_log_dirs in Hin. rewrite Hd0 in Hin.
    destruct Hin as [Heq | []]. destruct (log_dirs_differ a Heq).
Qed.

End Further.

(** ** The further properties on the small environment *)

(** X1 at work: ["resnex"] is an identifier of the dispatch, ["resnext"]
    is none. *)
Lemma dispatch_builds_one_network_iff_supported_witness :
  networks (calls (build_model Toy.env "resnex" 0)) = [ResNeXt29_2x64d] /\
  result (build_model Toy.env "resnext" 0)
  = Raise (Exception "Unsupported model name resnext").
Proof.
  destruct (dispatch_builds_one_network_iff_supported Toy.env "resnex" 0) as (_ & Hone & _).
  destruct (dispatch_builds_one_network_iff_supported Toy.env "resnext" 0) as (_ & _ & Hnone).
  split.
  - assert (Hin : In "resnex"%string supported_models) by (simpl; tauto).
    specialize (Hone Hin).
    destruct (networks (calls (build_model Toy.env "resnex" 0))) as [| n [| n' l]] eqn:Hn;
      try discriminate Hone.
    vm_compute in Hn. exact (eq_sym Hn).
  - apply Hnone. simpl. intuition discriminate.
Defined.

(** X2 at work: a first batch without samples, and a last one. *)
Lemma pass_outcome_depends_on_first_batch_witness :
  result (train Toy.env_hollow 0 0) = Raise ZeroDivisionError /\
  result (test Toy.env_hollow Toy.sgd 0 0) = Raise ZeroDivisionError /\
  (exists l a, result (train Toy.env_gap 0 0) = Ok (l, a)) /\
  (exists l a, result (test Toy.env_gap Toy.sgd 0 0) = Ok (l, a)).
Proof.
  destruct (pass_outcome_depends_on_first_batch Toy.env_hollow Toy.sgd 0 0)
    as (H1 & _ & H3 & _).
  destruct (pass_outcome_depends_on_first_batch Toy.env_gap Toy.sgd 0 0)
    as (_ & H2 & _ & H4).
  split; [apply H1; reflexivity |]. split; [apply H3; reflexivity |].
  split; [apply H2; [discriminate | reflexivity] | apply H4; [discriminate | reflexivity]].
Defined.

(** X3 at work: an evaluation pass that stops on its first batch. *)
Lemma aborted_evaluation_stays_at_base_witness :
  result (test Toy.env_hollow Toy.sgdo 0 0) = Raise ZeroDivisionError /\
  filter is_switch (calls (test Toy.env_hollow Toy.sgdo 0 0)) = [EvMoveToBase].
Proof.
  apply (aborted_evaluation_stays_at_base Toy.env_hollow Toy.sgdo 0 0); reflexivity.
Defined.

(** X6 at work on the training pass of the small environment. *)
Lemma pass_returns_last_progress_witness :
  exists l a w' tr pre,
    train Toy.env 0 0 = (Ok (l, a), w', tr) /\
    filter is_progress tr
    = pre ++ [EvProgressBar 1 2 l a (correct_predictions Toy.env tr) (samples_seen tr)].
Proof.
  destruct (pass_returns_last_progress Toy.env Toy.sgd 0 0) as [Htrain _].
  destruct (train Toy.env 0 0) as [[[[l a] | e] w'] tr] eqn:Hrun;
    [| vm_compute in Hrun; discriminate].
  destruct (Htrain l a w' tr eq_refl) as (pre & Hp).
  exists l, a, w', tr, pre. split; [reflexivity | exact Hp].
Defined.

(** X7 at work on both passes of the small environment. *)
Lemma accuracy_counts_are_bounded_witness :
  (exists l a w' tr,
      train Toy.env 0 0 = (Ok (l, a), w', tr) /\
      0 <= correct_predictions Toy.env tr <= samples_seen tr) /\
  (exists l a w' tr,
      test Toy.env Toy.sgd 0 0 = (Ok (l, a), w', tr) /\
      0 <= correct_predictions Toy.env tr <= samples_seen tr).
Proof.
  destruct (accuracy_counts_are_bounded Toy.env Toy.sgd 0 0) as [Htrain Htest].
  split.
  - destruct (train Toy.env 0 0) as [[[[l a] | e] w'] tr] eqn:Hrun;
      [| vm_compute in Hrun; discriminate].
    exists l, a, w', tr. split; [reflexivity |]. exact (proj1 (Htrain l a w' tr eq_refl)).
  - destruct (test Toy.env Toy.sgd 0 0) as [[[[l a] | e] w'] tr] eqn:Hrun;
      [| vm_compute in Hrun; discriminate].
    exists l, a, w', tr. split; [reflexivity |]. exact (proj1 (Htest l a w' tr eq_refl)).
Defined.

(** X8 at work: a run without data, and a run that completes. *)
Lemma stats_written_only_by_completed_run_witness :
  csv_files (calls (run Toy.env_no_data (Toy.cli "r" "resnet") 0 0)) = [] /\
  (exists pre cols rows,
      calls (run Toy.env (Toy.cli "r" "resnet") 0 0)
      = pre ++ [EvToCsv "tensorboard/r_overshoot_0/version_1/stats.csv" cols rows] /\
      csv_files pre = []).
Proof.
  destruct (stats_written_only_by_completed_run Toy.env_no_data (Toy.cli "r" "resnet") 0 0)
    as (Hraise & _).
  destruct (stats_written_only_by_completed_run Toy.env (Toy.cli "r" "resnet") 0 0)
    as (_ & Hok).
  split.
  - apply (Hraise (UnboundLocalError "batch_idx")). vm_compute. reflexivity.
  - apply Hok. vm_compute. reflexivity.
Defined.

(** X9 at work on the default command line. *)
Lemma plain_sgd_script_never_switches_witness :
  filter is_switch (calls (main Toy.env (Toy.cli "r" "resnet") 0)) = [].
Proof.
  apply (plain_sgd_script_never_switches Toy.env (Toy.cli "r" "resnet") 0). reflexivity.
Defined.

(** X10 at work: the 200 epochs of the small environment with an [SGDO]
    optimizer. *)
Lemma switches_alternate_over_epochs_witness :
  filter is_switch (calls (for_fold (range epochs) (epoch_body Toy.env Toy.sgdo) [] 0))
  = List.concat (repeat [EvMoveToBase; EvMoveToOvershoot] 200).
Proof.
  apply (switches_alternate_over_epochs Toy.env Toy.sgdo 0 toy_loaders_yield). reflexivity.
Defined.

(** X11 at work on the first run of the small environment. *)
Lemma stats_rows_are_logged_scalars_witness :
  exists w' tr (stats : list dict),
    run Toy.env (Toy.cli "r" "resnet") 0 0 = (Ok tt, w', tr) /\
    List.length stats = 200%nat /\
    csv_files tr
    = [("tensorboard/r_overshoot_0/version_1/stats.csv", stat_columns,
        map (map snd) stats)].
Proof.
  destruct (stats_rows_are_logged_scalars Toy.env (Toy.cli "r" "resnet") 0 0)
    as (w' & tr & stats & Hrun & Hlen & Hcsv & _).
  - simpl. tauto.
  - exact toy_loaders_yield.
  - exists w', tr, stats. repeat split; assumption.
Defined.

(** X13 at work on the two runs of the small environment. *)
Lemma second_run_follows_completed_first_witness :
  exists before cols rows after,
    calls (main Toy.env (Toy.cli "r" "resnet") 0)
    = before ++ EvToCsv "tensorboard/r_overshoot_0/version_1/stats.csv" cols rows
        :: after /\
    In (EvSummaryWriter "tensorboard/r_overshoot_0/version_2") after.
Proof.
  destruct (second_run_follows_completed_first Toy.env (Toy.cli "r" "resnet") 0)
    as (before & cols & rows & after & Hcalls & _ & Hin).
  - apply log_dirs_in_writer. vm_compute. right. left. reflexivity.
  - exists before, cols, rows, after. split; assumption.
Defined.
